(** * fx-banco: the USD/MXN quote adapter and its refresh cache

    A shallow embedding of [src/fx-banco/src/index.js] and of its later
    revision (the file that adds [parseBanxicoDate]), together with the
    parts of the JavaScript runtime the two files rely on: IEEE-754 doubles,
    [Number(...)], [Number.prototype.toFixed], string coercions, property
    access on parsed JSON, [Date] parsing and [Date.prototype.toISOString].

    Layout: runtime first ([Js]), then the program ([Adapter], [Index],
    [Part001]), then the theorems. *)

From Stdlib Require Import ZArith List String Ascii Bool Lia SpecFloat.
Import ListNotations.
Open Scope string_scope.
Open Scope Z_scope.

(* ================================================================== *)
(** * The JavaScript runtime used by the adapter *)
(* ================================================================== *)

Module Js.

(** ** Numbers: IEEE-754 binary64

    A finite non-zero double is [(-1)^neg * m * 2^e] with either
    [2^52 <= m < 2^53] and [-1074 <= e <= 971] (normal) or [m < 2^52]
    and [e = -1074] (subnormal). *)

Inductive number : Type :=
| NaN
| Inf (neg : bool)
| Zero (neg : bool)
| Fin (neg : bool) (m : positive) (e : Z).

Definition number_eqb (x y : number) : bool :=
  match x, y with
  | NaN, NaN => true
  | Inf a, Inf b => Bool.eqb a b
  | Zero a, Zero b => Bool.eqb a b
  | Fin a m e, Fin b m' e' => Bool.eqb a b && Pos.eqb m m' && Z.eqb e e'
  | _, _ => false
  end.

(** [Number.isFinite] *)
Definition isFinite (x : number) : bool :=
  match x with
  | Zero _ | Fin _ _ _ => true
  | NaN | Inf _ => false
  end.

(** A double in canonical form. *)
Definition canonical (x : number) : bool :=
  match x with
  | Fin _ m e =>
      ((2 ^ 52 <=? Zpos m) && (Zpos m <? 2 ^ 53) &&
       (-1074 <=? e) && (e <=? 971)) ||
      ((Zpos m <? 2 ^ 52) && (e =? -1074))
  | _ => true
  end.

(** The numbers a program can hold. *)
Record double : Type := mkDouble {
  dval : number;
  dcanon : canonical dval = true
}.

(** A non-negative rational [p / q] scaled by [2^(-e)], as a fraction. *)
Definition scale2 (p q e : Z) : Z * Z :=
  if 0 <=? e then (p, q * 2 ^ e) else (p * 2 ^ (- e), q).

(** [floor (log2 (p / q))] for [p, q > 0]. *)
Definition ilog2_ratio (p q : Z) : Z :=
  let l := Z.log2 p - Z.log2 q in
  let '(n, d) := scale2 p q l in
  if d <=? n then l else l - 1.

(** Round the fraction [n / d] to an integer, ties to even. *)
Definition round_half_even (n d : Z) : Z :=
  let fl := n / d in
  let r := n mod d in
  match 2 * r ?= d with
  | Lt => fl
  | Gt => fl + 1
  | Eq => if Z.even fl then fl else fl + 1
  end.

(** The double nearest to [(-1)^neg * p / q] ([p >= 0], [q > 0]),
    round-to-nearest, ties-to-even, with overflow to infinity and gradual
    underflow. *)
Definition round_ratio (neg : bool) (p q : Z) : number :=
  if p <=? 0 then Zero neg else
  let e := Z.max (ilog2_ratio p q - 52) (-1074) in
  let '(n, d) := scale2 p q e in
  let m := round_half_even n d in
  let '(m, e) := if m =? 2 ^ 53 then (2 ^ 52, e + 1) else (m, e) in
  if m <=? 0 then Zero neg
  else if 971 <? e then Inf neg
  else Fin neg (Z.to_pos m) e.

(** The double nearest to [(-1)^neg * m * 10^e]. *)
Definition round_decimal (neg : bool) (m e : Z) : number :=
  if 0 <=? e then round_ratio neg (m * 10 ^ e) 1
  else round_ratio neg m (10 ^ (- e)).

(** The double nearest to the integer [z]. *)
Definition of_Z (z : Z) : number :=
  round_ratio (z <? 0) (Z.abs z) 1.

(** The exact value of a finite double as a fraction [(numerator, denominator)],
    sign included in the numerator. *)
Definition exact (x : number) : Z * Z :=
  match x with
  | Fin neg m e =>
      let '(n, d) := scale2 (Zpos m) 1 (- e) in
      ((if neg then - n else n), d)
  | _ => (0, 1)
  end.

(** Comparison of two numbers by value: [None] when either is [NaN]. *)
Definition compare (x y : number) : option comparison :=
  match x, y with
  | NaN, _ | _, NaN => None
  | Inf a, Inf b =>
      Some (if a then (if b then Eq else Lt) else (if b then Gt else Eq))
  | Inf a, _ => Some (if a then Lt else Gt)
  | _, Inf b => Some (if b then Gt else Lt)
  | _, _ =>
      let '(n1, d1) := exact x in
      let '(n2, d2) := exact y in
      Some (n1 * d2 ?= n2 * d1)
  end.

(** [x > y] *)
Definition gt (x y : number) : bool :=
  match compare x y with
  | Some Gt => true
  | _ => false
  end.

(** ** Strings

    A string is a sequence of code units; [string] covers the code units
    below 256. *)

Definition str1 (c : ascii) : string := String c EmptyString.

Definition code (c : ascii) : Z := Z.of_nat (nat_of_ascii c).

Definition char_eqb (a b : ascii) : bool := Ascii.eqb a b.

(** [WhiteSpace] and [LineTerminator] code units: TAB, LF, VT, FF, CR,
    SP and NBSP. *)
Definition is_white_space (c : ascii) : bool :=
  let n := code c in
  ((9 <=? n) && (n <=? 13)) || (n =? 32) || (n =? 160).

Fixpoint trim_start (s : string) : string :=
  match s with
  | String c s' => if is_white_space c then trim_start s' else s
  | EmptyString => EmptyString
  end.

Fixpoint trim_end (s : string) : string :=
  match s with
  | String c s' =>
      match trim_end s' with
      | EmptyString => if is_white_space c then EmptyString else str1 c
      | t => String c t
      end
  | EmptyString => EmptyString
  end.

Definition trim (s : string) : string := trim_end (trim_start s).

(** [s.includes(c)] for a one-character search string. *)
Fixpoint includes (s : string) (c : ascii) : bool :=
  match s with
  | String a s' => char_eqb a c || includes s' c
  | EmptyString => false
  end.

(** [s.split(c)] for a one-character separator: never empty. *)
Fixpoint split (s : string) (c : ascii) : list string :=
  match s with
  | EmptyString => [EmptyString]
  | String a s' =>
      if char_eqb a c then EmptyString :: split s' c
      else match split s' c with
           | h :: t => String a h :: t
           | [] => [str1 a]
           end
  end.

(** The decimal digit of a code unit, radix up to 16. *)
Definition digit_value (radix : Z) (c : ascii) : option Z :=
  let n := code c in
  let d :=
    if (48 <=? n) && (n <=? 57) then n - 48
    else if (97 <=? n) && (n <=? 102) then n - 87
    else if (65 <=? n) && (n <=? 70) then n - 55
    else 16 in
  if d <? radix then Some d else None.

Definition digit_char (d : Z) : ascii := ascii_of_nat (Z.to_nat (48 + d)).

(** The digits of [n >= 0] in radix 10, most significant first, in front
    of [acc]. *)
Fixpoint digits_fuel (fuel : nat) (n : Z) (acc : string) : string :=
  match fuel with
  | O => acc
  | S f =>
      let acc' := String (digit_char (n mod 10)) acc in
      if n <? 10 then acc' else digits_fuel f (n / 10) acc'
  end.

Definition decimal_digits (n : Z) : string :=
  digits_fuel (S (Z.to_nat (Z.log2 n))) n EmptyString.

(** Read the longest prefix of digits: the accumulated value, the number
    of digits read and the rest of the string. *)
Fixpoint scan_digits (radix : Z) (s : string) (acc cnt : Z) : Z * Z * string :=
  match s with
  | String c s' =>
      match digit_value radix c with
      | Some d => scan_digits radix s' (acc * radix + d) (cnt + 1)
      | None => (acc, cnt, s)
      end
  | EmptyString => (acc, cnt, s)
  end.

Fixpoint repeat_char (c : ascii) (n : nat) : string :=
  match n with
  | O => EmptyString
  | S k => String c (repeat_char c k)
  end.

Definition slen (s : string) : Z := Z.of_nat (String.length s).

(** Left-pad with zeros up to [w] characters. *)
Definition pad_zeros (w : Z) (s : string) : string :=
  repeat_char "0" (Z.to_nat (w - slen s)) ++ s.

(** ** [Number::toString] (radix 10)

    The shortest decimal [s * 10^(n-k)] ([k] digits in [s]) that rounds
    back to the double, closest to it among those of that length. *)

Definition num_digits (z : Z) : Z := slen (decimal_digits z).

(** [p / q] scaled by [10^(-e)], as a fraction. *)
Definition scale10 (p q e : Z) : Z * Z :=
  if 0 <=? e then (p, q * 10 ^ e) else (p * 10 ^ (- e), q).

(** The least [j' >= j] with [q <= p * 10^j']; the smallest double needs
    324. *)
Fixpoint first_ge (fuel : nat) (p q j : Z) : Z :=
  match fuel with
  | O => j
  | S f => if q <=? p * 10 ^ j then j else first_ge f p q (j + 1)
  end.

(** The [n] with [10^(n-1) <= p / q < 10^n]. *)
Definition decimal_exponent (p q : Z) : Z :=
  if q <=? p then num_digits (p / q) else 1 - first_ge 400 p q 1.

(** Does [s * 10^(n-k)], [k] the number of digits of [s], round to [x]? *)
Definition rounds_to (x : number) (sn : Z * Z) : bool :=
  let '(s, n) := sn in
  number_eqb (round_decimal false s (n - num_digits s)) x.

(** The [k]-digit decimals just below and just above [p / q]; of those
    that round to [x], the closer one. *)
Definition candidate (x : number) (p q n0 k : Z) : option (Z * Z) :=
  let '(num, den) := scale10 p q (n0 - k) in
  let lo := (num / den, n0) in
  let hi := if num / den + 1 =? 10 ^ k then (1, n0 + 1)
            else (num / den + 1, n0) in
  match rounds_to x lo, rounds_to x hi with
  | false, false => None
  | true, false => Some lo
  | false, true => Some hi
  | true, true =>
      match 2 * (num mod den) ?= den with
      | Lt => Some lo
      | Gt => Some hi
      | Eq => if Z.even (num / den) then Some lo else Some hi
      end
  end.

Fixpoint shortest_from (fuel : nat) (x : number) (p q n0 k : Z)
  : option (Z * Z) :=
  match fuel with
  | O => None
  | S f =>
      match candidate x p q n0 k with
      | Some r => Some r
      | None => shortest_from f x p q n0 (k + 1)
      end
  end.

(** The full decimal expansion of [p / 2^j]. *)
Definition exact_decimal (p q : Z) : Z * Z :=
  let j := Z.log2 q in
  let s := p * 5 ^ j in
  (s, num_digits s - j).

(** [(s, n)] for the positive double [x = p / q]. *)
Definition shortest (x : number) (p q : Z) : Z * Z :=
  match shortest_from 17 x p q (decimal_exponent p q) 1 with
  | Some r => r
  | None => exact_decimal p q
  end.

Definition format_decimal (s n : Z) : string :=
  let ds := decimal_digits s in
  let k := slen ds in
  if (k <=? n) && (n <=? 21) then
    ds ++ repeat_char "0" (Z.to_nat (n - k))
  else if (0 <? n) && (n <=? 21) then
    substring 0 (Z.to_nat n) ds ++ "." ++
    substring (Z.to_nat n) (Z.to_nat (k - n)) ds
  else if (-6 <? n) && (n <=? 0) then
    "0." ++ repeat_char "0" (Z.to_nat (- n)) ++ ds
  else
    let e := n - 1 in
    let es := (if e <? 0 then "-" else "+") ++ decimal_digits (Z.abs e) in
    if k =? 1 then ds ++ "e" ++ es
    else substring 0 1 ds ++ "." ++
         substring 1 (Z.to_nat (k - 1)) ds ++ "e" ++ es.

Definition Number_toString (x : number) : string :=
  match x with
  | NaN => "NaN"
  | Zero _ => "0"
  | Inf neg => if neg then "-Infinity" else "Infinity"
  | Fin neg m e =>
      let '(p, q) := exact (Fin false m e) in
      let '(s, n) := shortest (Fin false m e) p q in
      (if neg then "-" else EmptyString) ++ format_decimal s n
  end.

(** ** [Number.prototype.toFixed] *)

(** The digits of [n] with a decimal point in front of the last [f]. *)
Definition fixed_digits (n f : Z) : string :=
  let m := decimal_digits n in
  if f =? 0 then m
  else
    let m := if slen m <=? f then pad_zeros (f + 1) m else m in
    let k := slen m in
    substring 0 (Z.to_nat (k - f)) m ++ "." ++
    substring (Z.to_nat (k - f)) (Z.to_nat f) m.

(** The integer [n] for which [n / 10^f] is closest to [p / q], the larger
    one on a tie. *)
Definition nearest_scaled (p q f : Z) : Z :=
  (2 * p * 10 ^ f + q) / (2 * q).

Definition toFixed (x : number) (f : Z) : string :=
  match x with
  | NaN | Inf _ => Number_toString x
  | Zero _ => fixed_digits 0 f
  | Fin neg m e =>
      let '(p, q) := exact (Fin false m e) in
      (if neg then "-" else EmptyString) ++
      (if 10 ^ 21 * q <=? p then Number_toString (Fin false m e)
       else fixed_digits (nearest_scaled p q f) f)
  end.

(** ** [StringToNumber]: what [Number(s)] computes on a string *)

Definition is_char (c : ascii) (chars : list ascii) : bool :=
  existsb (char_eqb c) chars.

(** [+digits], [-digits] or [digits] up to the end of the string. *)
Definition parse_exponent (s : string) : option Z :=
  let '(neg, s1) :=
    match s with
    | String c r =>
        if char_eqb c "+" then (false, r)
        else if char_eqb c "-" then (true, r)
        else (false, s)
    | EmptyString => (false, s)
    end in
  match scan_digits 10 s1 0 0 with
  | (v, cnt, EmptyString) =>
      if 0 <? cnt then Some (if neg then - v else v) else None
  | _ => None
  end.

(** [StrUnsignedDecimalLiteral]: [Infinity], [digits.digits], [.digits] or
    [digits], the last three with an optional exponent. *)
Definition parse_unsigned_decimal (neg : bool) (s : string) : number :=
  if String.eqb s "Infinity" then Inf neg else
  let '(i, ni, r1) := scan_digits 10 s 0 0 in
  let '(m, nf, r2) :=
    match r1 with
    | String c r => if char_eqb c "." then scan_digits 10 r i 0 else (i, 0, r1)
    | EmptyString => (i, 0, r1)
    end in
  if ni + nf =? 0 then NaN
  else
    match r2 with
    | EmptyString => round_decimal neg m (- nf)
    | String c r3 =>
        if is_char c ["e"; "E"]%char then
          match parse_exponent r3 with
          | Some x => round_decimal neg m (x - nf)
          | None => NaN
          end
        else NaN
    end.

Definition parse_radix (radix : Z) (s : string) : number :=
  match scan_digits radix s 0 0 with
  | (v, cnt, EmptyString) => if 0 <? cnt then of_Z v else NaN
  | _ => NaN
  end.

(** [0x], [0o] or [0b] (either case) in front of the digits. *)
Definition radix_prefix (s : string) : option (Z * string) :=
  match s with
  | String c (String d r) =>
      if negb (char_eqb c "0") then None
      else if is_char d ["x"; "X"]%char then Some (16, r)
      else if is_char d ["o"; "O"]%char then Some (8, r)
      else if is_char d ["b"; "B"]%char then Some (2, r)
      else None
  | _ => None
  end.

Definition StringToNumber (s : string) : number :=
  match trim s with
  | EmptyString => Zero false
  | String c r =>
      if char_eqb c "+" then parse_unsigned_decimal false r
      else if char_eqb c "-" then parse_unsigned_decimal true r
      else
        match radix_prefix (String c r) with
        | Some (radix, ds) => parse_radix radix ds
        | None => parse_unsigned_decimal false (String c r)
        end
  end.

(** ** Errors and completions *)

Record Error : Type := mkError { name : string; message : string }.

Inductive completion (A : Type) : Type :=
| Normal (a : A)
| Throw (e : Error).
Arguments Normal {A} a.
Arguments Throw {A} e.

Definition bindc {A B} (c : completion A) (k : A -> completion B)
  : completion B :=
  match c with
  | Normal a => k a
  | Throw e => Throw e
  end.

Definition TypeError (msg : string) : Error := mkError "TypeError" msg.
Definition RangeError (msg : string) : Error := mkError "RangeError" msg.

(** [Error.prototype.toString] *)
Definition Error_toString (e : Error) : string :=
  if String.eqb (name e) EmptyString then message e
  else if String.eqb (message e) EmptyString then name e
  else name e ++ ": " ++ message e.

(** ** Values: what [JSON.parse] builds, and [undefined] *)

#[warnings="-register-all"]
Inductive value : Type :=
| VUndefined
| VNull
| VBool (b : bool)
| VNum (x : double)
| VStr (s : string)
| VArr (items : list value)
| VObj (props : list (string * value)).

Fixpoint lookup (key : string) (props : list (string * value)) : option value :=
  match props with
  | (k, v) :: rest => if String.eqb k key then Some v else lookup key rest
  | [] => None
  end.

Definition has_own (key : string) (props : list (string * value)) : bool :=
  match lookup key props with
  | Some _ => true
  | None => false
  end.

(** [v.key] for a key that no built-in prototype defines ([bmx], [series],
    [datos], [dato], [fecha]). *)
Definition get (v : value) (key : string) : value :=
  match v with
  | VObj props =>
      match lookup key props with
      | Some x => x
      | None => VUndefined
      end
  | _ => VUndefined
  end.

(** [v[0]] *)
Definition get0 (v : value) : value :=
  match v with
  | VArr (x :: _) => x
  | VStr (String c _) => VStr (str1 c)
  | VObj _ => get v "0"
  | _ => VUndefined
  end.

(** Optional chaining, [v?.…]: short-circuits on [undefined] and [null]. *)
Definition opt (v : value) (access : value -> value) : value :=
  match v with
  | VUndefined | VNull => VUndefined
  | _ => access v
  end.

(** [ToBoolean] *)
Definition truthy (v : value) : bool :=
  match v with
  | VUndefined | VNull => false
  | VBool b => b
  | VNum x =>
      match dval x with
      | Zero _ | NaN => false
      | _ => true
      end
  | VStr EmptyString => false
  | VStr _ => true
  | VArr _ | VObj _ => true
  end.

Definition cannot_convert : Error :=
  TypeError "Cannot convert object to primitive value".

(** [ToString].  An object from [JSON.parse] inherits
    [Object.prototype.toString] unless it has an own (never callable)
    [toString] property; an array is joined with commas. *)
Fixpoint ToString (v : value) : completion string :=
  match v with
  | VUndefined => Normal "undefined"
  | VNull => Normal "null"
  | VBool b => Normal (if b then "true" else "false")
  | VNum x => Normal (Number_toString (dval x))
  | VStr s => Normal s
  | VArr items =>
      (fix join (l : list value) : completion string :=
         match l with
         | [] => Normal EmptyString
         | x :: r =>
             bindc (match x with
                    | VUndefined | VNull => Normal EmptyString
                    | _ => ToString x
                    end)
               (fun a =>
                  match r with
                  | [] => Normal a
                  | _ => bindc (join r) (fun b => Normal (a ++ "," ++ b))
                  end)
         end) items
  | VObj props =>
      if has_own "toString" props then Throw cannot_convert
      else Normal "[object Object]"
  end.

(** [ToNumber], that is [Number(v)] *)
Definition ToNumber (v : value) : completion number :=
  match v with
  | VUndefined => Normal NaN
  | VNull => Normal (Zero false)
  | VBool b => Normal (if b then of_Z 1 else Zero false)
  | VNum x => Normal (dval x)
  | VStr s => Normal (StringToNumber s)
  | VArr _ | VObj _ => bindc (ToString v) (fun s => Normal (StringToNumber s))
  end.

(** ** Dates

    A time value is a number of milliseconds since the epoch, at most
    8.64e15 in absolute value; an invalid date has none. *)

Definition ms_per_day : Z := 86400000.

Definition is_leap (y : Z) : bool :=
  ((y mod 4 =? 0) && negb (y mod 100 =? 0)) || (y mod 400 =? 0).

Definition days_in_month (y m : Z) : Z :=
  if m =? 2 then (if is_leap y then 29 else 28)
  else if (m =? 4) || (m =? 6) || (m =? 9) || (m =? 11) then 30
  else 31.

(** Days from 1970-01-01 to the civil date [y-m-d] (proleptic Gregorian). *)
Definition days_from_civil (y m d : Z) : Z :=
  let y' := if m <=? 2 then y - 1 else y in
  let era := y' / 400 in
  let yoe := y' - era * 400 in
  let mp := (m + 9) mod 12 in
  let doy := (153 * mp + 2) / 5 + d - 1 in
  let doe := yoe * 365 + yoe / 4 - yoe / 100 + doy in
  era * 146097 + doe - 719468.

(** The civil date of a day number: [(year, month, day)]. *)
Definition civil_from_days (z : Z) : Z * Z * Z :=
  let z := z + 719468 in
  let era := z / 146097 in
  let doe := z - era * 146097 in
  let yoe := (doe - doe / 1460 + doe / 36524 - doe / 146096) / 365 in
  let doy := doe - (365 * yoe + yoe / 4 - yoe / 100) in
  let mp := (5 * doy + 2) / 153 in
  let d := doy - (153 * mp + 2) / 5 + 1 in
  let m := if mp <? 10 then mp + 3 else mp - 9 in
  ((yoe + era * 400 + (if m <=? 2 then 1 else 0)), m, d).

(** [TimeClip] *)
Definition TimeClip (t : Z) : option Z :=
  if Z.abs t <=? 8640000000000000 then Some t else None.

(** Exactly [n] digits. *)
Fixpoint take_digits (n : nat) (s : string) (acc : Z) : option (Z * string) :=
  match n with
  | O => Some (acc, s)
  | S k =>
      match s with
      | String c r =>
          match digit_value 10 c with
          | Some d => take_digits k r (acc * 10 + d)
          | None => None
          end
      | EmptyString => None
      end
  end.

Definition bindo {A B} (o : option A) (k : A -> option B) : option B :=
  match o with
  | Some a => k a
  | None => None
  end.

(** [YYYY] or a sign and [YYYYYY]; [-000000] is not a year. *)
Definition iso_year (s : string) : option (Z * string) :=
  match s with
  | String "+" r => take_digits 6 r 0
  | String "-" r =>
      bindo (take_digits 6 r 0)
        (fun '(y, r') => if y =? 0 then None else Some (- y, r'))
  | _ => take_digits 4 s 0
  end.

(** [YYYY], [YYYY-MM] or [YYYY-MM-DD], a real calendar date. *)
Definition iso_date (s : string) : option (Z * string) :=
  bindo (iso_year s) (fun '(y, r) =>
  match r with
  | String "-" r1 =>
      bindo (take_digits 2 r1 0) (fun '(m, r2) =>
      if negb ((1 <=? m) && (m <=? 12)) then None else
      match r2 with
      | String "-" r3 =>
          bindo (take_digits 2 r3 0) (fun '(d, r4) =>
          if (1 <=? d) && (d <=? days_in_month y m)
          then Some (days_from_civil y m d, r4) else None)
      | _ => Some (days_from_civil y m 1, r2)
      end)
  | _ => Some (days_from_civil y 1 1, r)
  end).

(** [Z] or [+HH:mm] or [-HH:mm] up to the end of the string: the offset in
    minutes. *)
Definition iso_offset (s : string) : option Z :=
  match s with
  | String "Z" EmptyString => Some 0
  | String c r =>
      if char_eqb c "+" || char_eqb c "-" then
        bindo (take_digits 2 r 0) (fun '(h, r1) =>
        match r1 with
        | String ":" r2 =>
            bindo (take_digits 2 r2 0) (fun '(m, r3) =>
            match r3 with
            | EmptyString =>
                if (h <=? 23) && (m <=? 59)
                then Some (if char_eqb c "-" then - (h * 60 + m) else h * 60 + m)
                else None
            | _ => None
            end)
        | _ => None
        end)
      else None
  | EmptyString => None
  end.

(** [THH:mm], [THH:mm:ss] or [THH:mm:ss.sss] followed by an offset:
    milliseconds to add to the day, the offset subtracted. *)
Definition iso_time (s : string) : option Z :=
  match s with
  | String "T" r =>
      bindo (take_digits 2 r 0) (fun '(h, r1) =>
      match r1 with
      | String ":" r2 =>
          bindo (take_digits 2 r2 0) (fun '(mi, r3) =>
          bindo
            (match r3 with
             | String ":" r4 =>
                 bindo (take_digits 2 r4 0) (fun '(sec, r5) =>
                 match r5 with
                 | String "." r6 =>
                     bindo (take_digits 3 r6 0) (fun '(ms, r7) =>
                     Some (sec, ms, r7))
                 | _ => Some (sec, 0, r5)
                 end)
             | _ => Some (0, 0, r3)
             end)
            (fun '(sec, ms, r8) =>
             bindo (iso_offset r8) (fun off =>
             let legal :=
               ((h <=? 23) && (mi <=? 59) && (sec <=? 59)) ||
               ((h =? 24) && (mi =? 0) && (sec =? 0) && (ms =? 0)) in
             if legal
             then Some (((h * 60 + mi) * 60 + sec) * 1000 + ms - off * 60000)
             else None)))
      | _ => None
      end)
  | _ => None
  end.

(** The Date Time String Format of the language, restricted to the forms
    whose value no engine may choose: a calendar date alone (UTC), or a
    date and a time with an explicit offset.  [None]: the string is not of
    that format; [Some None]: it is, and its time value is out of range. *)
Definition parse_iso (s : string) : option (option Z) :=
  bindo (iso_date s) (fun '(days, r) =>
  match r with
  | EmptyString => Some (TimeClip (days * ms_per_day))
  | _ => bindo (iso_time r) (fun t => Some (TimeClip (days * ms_per_day + t)))
  end).

(** [Date.parse] and [new Date(string)]: a string outside the format above
    is left to the engine's own parser, [engine_parse]. *)
Definition Date_parse (engine_parse : string -> option Z) (s : string)
  : option Z :=
  match parse_iso s with
  | Some t => t
  | None => bindo (engine_parse s) TimeClip
  end.

Definition pad2 (n : Z) : string := pad_zeros 2 (decimal_digits n).

(** [Date.prototype.toISOString] *)
Definition toISOString (t : option Z) : completion string :=
  match t with
  | None => Throw (RangeError "Invalid time value")
  | Some t =>
      let day := t / ms_per_day in
      let ms := t mod ms_per_day in
      let '(y, m, d) := civil_from_days day in
      let year :=
        if (0 <=? y) && (y <=? 9999) then pad_zeros 4 (decimal_digits y)
        else (if y <? 0 then "-" else "+") ++
             pad_zeros 6 (decimal_digits (Z.abs y)) in
      Normal (year ++ "-" ++ pad2 m ++ "-" ++ pad2 d ++ "T" ++
              pad2 (ms / 3600000) ++ ":" ++ pad2 (ms / 60000 mod 60) ++ ":" ++
              pad2 (ms / 1000 mod 60) ++ "." ++
              pad_zeros 3 (decimal_digits (ms mod 1000)) ++ "Z")
  end.

End Js.

(* ================================================================== *)
(** * The adapter *)
(* ================================================================== *)

Module Adapter.
Import Js.

(** ** State, host and the monad of handlers *)

(** [let cache = { asOf, usd_mxn_mid, stale, raw }]; [null] is [None]. *)
Record Cache : Type := mkCache {
  asOf : option string;
  usd_mxn_mid : option number;
  stale : bool;
  raw : value
}.

(** [{ asOf: null, usd_mxn_mid: null, stale: true, raw: null }] *)
Definition initial_cache : Cache :=
  {| asOf := None; usd_mxn_mid := None; stale := true; raw := VNull |}.

Record Request : Type := mkRequest {
  url : string;
  headers : list (string * string)
}.

(** What [fetch] resolves to: the status line and what [r.json()] then
    resolves to or rejects with. *)
Record Response : Type := mkResponse {
  status : Z;
  json : completion value
}.

(** [r.ok] *)
Definition ok (r : Response) : bool :=
  (200 <=? status r) && (status r <? 300).

(** The world around the process: its environment variables, the readings
    of the clock in order, what the upstream answers to the n-th request,
    and the engine's parser for date strings outside the standard format. *)
Record Host : Type := mkHost {
  env : string -> option string;
  clock : nat -> Z;
  network : nat -> Request -> completion Response;
  engine_parse : string -> option Z
}.

(** The mutable state: the cache, how often the clock was read and the
    upstream requests sent so far (latest first). *)
Record World : Type := mkWorld {
  cache : Cache;
  clock_reads : nat;
  requests : list Request
}.

Definition M (A : Type) : Type := World -> completion A * World.

Definition ret {A} (a : A) : M A := fun w => (Normal a, w).

Definition throw {A} (e : Error) : M A := fun w => (Throw e, w).

Definition bind {A B} (c : M A) (k : A -> M B) : M B :=
  fun w =>
    match c w with
    | (Normal a, w') => k a w'
    | (Throw e, w') => (Throw e, w')
    end.

Notation "x <- c ;; k" := (bind c (fun x => k))
  (at level 61, c at next level, right associativity).
Notation "c ;;; k" := (bind c (fun _ => k))
  (at level 61, right associativity).

(** [try { body } catch (e) { handler }] *)
Definition try_catch {A} (body : M A) (handler : Error -> M A) : M A :=
  fun w =>
    match body w with
    | (Normal a, w') => (Normal a, w')
    | (Throw e, w') => handler e w'
    end.

Definition lift {A} (c : completion A) : M A := fun w => (c, w).

Definition get_cache : M Cache := fun w => (Normal (cache w), w).

(** [cache = c] *)
Definition set_cache (c : Cache) : M unit :=
  fun w => (Normal tt, {| cache := c; clock_reads := clock_reads w;
                          requests := requests w |}).

Section WithHost.
Variable host : Host.

(** [Date.now()] *)
Definition Date_now : M Z :=
  fun w => (Normal (clock host (clock_reads w)),
            {| cache := cache w; clock_reads := S (clock_reads w);
               requests := requests w |}).

(** [await fetch(url, { headers })] *)
Definition fetch (rq : Request) : M Response :=
  fun w => (network host (List.length (requests w)) rq,
            {| cache := cache w; clock_reads := clock_reads w;
               requests := rq :: requests w |}).

(** [process.env.NAME || fallback] *)
Definition env_or (name fallback : string) : string :=
  match env host name with
  | Some (String c s) => String c s
  | _ => fallback
  end.

(** [Number(process.env.NAME || fallback)] *)
Definition env_number (name : string) (fallback : Z) : number :=
  match env host name with
  | Some (String c s) => StringToNumber (String c s)
  | _ => of_Z fallback
  end.

Definition BANXICO_TOKEN : option string := env host "BANXICO_TOKEN".
Definition BUY_SPREAD_BPS : number := env_number "BUY_SPREAD_BPS" 25.
Definition SELL_SPREAD_BPS : number := env_number "SELL_SPREAD_BPS" 25.
Definition SERIES_ID : string := env_or "BANXICO_SERIES_ID" "SF43718".
Definition SOURCE : string := env_or "FX_SOURCE" "banxico_fix".

(** [!s] for a string or [null] *)
Definition absent (s : option string) : bool :=
  match s with
  | Some (String _ _) => false
  | _ => true
  end.

(** [now - Date.parse(s)]: both operands are integers of the double
    format, so their difference is the rounded exact difference. *)
Definition age (now : Z) (s : string) : number :=
  match Date_parse (engine_parse host) s with
  | Some t => of_Z (now - t)
  | None => NaN
  end.

(** [function isStale(asOfISO)] *)
Definition isStale (asOfISO : option string) : M bool :=
  match asOfISO with
  | Some (String c s) =>
      now <- Date_now ;;
      ret (gt (age now (String c s)) (of_Z (24 * 60 * 60 * 1000)))
  | _ => ret true
  end.

Inductive Body : Type :=
| HealthBody (ok : bool) (source : string) (cached stale : bool)
| QuoteBody (asOf : option string) (usd_mxn_mid : option number)
    (buy_spread_bps sell_spread_bps : number) (source : string) (stale : bool)
| ErrorBody (error : string).

(** [res.status(code).json(body)]; [res.json(body)] answers 200. *)
Record HttpResponse : Type := mkHttp {
  code : Z;
  body : Body
}.

(** [app.get("/healthz", ...)] *)
Definition healthz : M HttpResponse :=
  c <- get_cache ;;
  st <- isStale (asOf c) ;;
  ret {| code := 200;
         body := HealthBody true SOURCE (negb (absent (asOf c))) st |}.

(** The request [fetchBanxico] sends. *)
Definition banxico_request : Request :=
  {| url := "https://www.banxico.org.mx/SieAPIRest/service/v1/series/" ++
            SERIES_ID ++ "/datos/oportuno?locale=en";
     headers := ("Accept", "application/json") ::
                match BANXICO_TOKEN with
                | Some (String c s) => [("Bmx-Token", String c s)]
                | _ => []
                end |}.

(** [String(e.message || e)] *)
Definition error_text (e : Error) : string :=
  match message e with
  | String c s => String c s
  | EmptyString => Error_toString e
  end.

(** [const needsRefresh = !cache.asOf ||
      (Date.now() - Date.parse(cache.asOf)) > MAX_CACHE_MS] *)
Definition needsRefresh (c : Cache) (MAX_CACHE_MS : number) : M bool :=
  match asOf c with
  | Some (String a s) =>
      now <- Date_now ;;
      ret (gt (age now (String a s)) MAX_CACHE_MS)
  | _ => ret true
  end.

Section Handlers.
Variable fetchBanxico : M Cache.

(** [app.get("/fx/usd-mxn/latest", async ...)] *)
Definition latest : M HttpResponse :=
  try_catch
    (let MAX_CACHE_MS := env_number "MAX_CACHE_MS" (60 * 60 * 1000) in
     c <- get_cache ;;
     refresh <- needsRefresh c MAX_CACHE_MS ;;
     (if refresh then fetchBanxico ;;; ret tt else ret tt) ;;;
     c <- get_cache ;;
     st <- isStale (asOf c) ;;
     ret {| code := 200;
            body := QuoteBody (asOf c) (usd_mxn_mid c)
                      BUY_SPREAD_BPS SELL_SPREAD_BPS SOURCE st |})
    (fun e => ret {| code := 502; body := ErrorBody (error_text e) |}).

End Handlers.

(** The steps of [fetchBanxico] the two files share. *)

(** [throw new Error(`BANXICO_UPSTREAM_${r.status}`)] *)
Definition upstream_error (r : Response) : Error :=
  mkError "Error" ("BANXICO_UPSTREAM_" ++ Number_toString (of_Z (status r))).

Definition parse_error : Error := mkError "Error" "BANXICO_PARSE_ERROR".

(** [j?.bmx?.series?.[0]] and [serie?.datos?.[0]] *)
Definition first_point (j : value) : value :=
  let serie := opt (opt (opt j (fun v => get v "bmx"))
                      (fun v => get v "series")) get0 in
  opt (opt serie (fun v => get v "datos")) get0.

(** [new Date(`${fecha}T18:00:00Z`).toISOString()] *)
Definition normalize_date (fecha : value) : completion string :=
  bindc (ToString fecha) (fun f =>
  toISOString (Date_parse (engine_parse host) (f ++ "T18:00:00Z"))).

End WithHost.
End Adapter.

(** ** [src/fx-banco/src/index.js] *)

Module Index.
Import Js Adapter.

Section WithHost.
Variable host : Host.

(** [async function fetchBanxico()] *)
Definition fetchBanxico : M Cache :=
  r <- fetch host (banxico_request host) ;;
  if negb (ok r) then throw (upstream_error r) else
  j <- lift (json r) ;;
  let punto := first_point j in
  mid <- lift (ToNumber (opt punto (fun v => get v "dato"))) ;;
  let fecha := opt punto (fun v => get v "fecha") in
  if negb (isFinite mid) || negb (truthy fecha) then throw parse_error else
  asOf <- lift (normalize_date host fecha) ;;
  set_cache {| asOf := Some asOf;
               usd_mxn_mid := Some (StringToNumber (toFixed mid 4));
               stale := false;
               raw := j |} ;;;
  get_cache.

Definition healthz : M HttpResponse := Adapter.healthz host.
Definition latest : M HttpResponse := Adapter.latest host fetchBanxico.

End WithHost.
End Index.

(** ** The revision with [parseBanxicoDate] *)

Module Part001.
Import Js Adapter.

Definition not_a_function (what : string) : Error :=
  TypeError (what ++ " is not a function").

(** [d.includes("/")] *)
Definition call_includes (d : value) : completion bool :=
  match d with
  | VStr s => Normal (includes s "/")
  | VArr items =>
      Normal (existsb (fun x => match x with
                                | VStr "/" => true
                                | _ => false
                                end) items)
  | _ => Throw (not_a_function "d.includes")
  end.

(** [const [day, month, year] = d.split("/")]: the call sits in an array
    destructuring, and the engine words its error for both. *)
Definition call_split (d : value) : completion (list string) :=
  match d with
  | VStr s => Normal (split s "/")
  | _ => Throw (TypeError
           "d.split is not a function or its return value is not iterable")
  end.

(** An element of a destructured array inside a template literal. *)
Definition part (parts : list string) (i : nat) : string :=
  nth i parts "undefined".

(** [function parseBanxicoDate(d)] *)
Definition parseBanxicoDate (d : value) : completion value :=
  if negb (truthy d) then Normal d else
  bindc (call_includes d) (fun has_slash =>
  if negb has_slash then Normal d else
  bindc (call_split d) (fun parts =>
  let day := part parts 0 in
  let month := part parts 1 in
  let year := part parts 2 in
  Normal (VStr (year ++ "-" ++ month ++ "-" ++ day)))).

Section WithHost.
Variable host : Host.

(** [async function fetchBanxico()] *)
Definition fetchBanxico : M Cache :=
  r <- fetch host (banxico_request host) ;;
  if negb (ok r) then throw (upstream_error r) else
  j <- lift (json r) ;;
  let punto := first_point j in
  mid <- lift (ToNumber (opt punto (fun v => get v "dato"))) ;;
  fecha <- lift (parseBanxicoDate (opt punto (fun v => get v "fecha"))) ;;
  if negb (isFinite mid) || negb (truthy fecha) then throw parse_error else
  asOf <- lift (normalize_date host fecha) ;;
  set_cache {| asOf := Some asOf;
               usd_mxn_mid := Some (StringToNumber (toFixed mid 4));
               stale := false;
               raw := j |} ;;;
  get_cache.

Definition healthz : M HttpResponse := Adapter.healthz host.
Definition latest : M HttpResponse := Adapter.latest host fetchBanxico.

End WithHost.
End Part001.

(** ** Both files at once *)

Inductive version : Type := index_js | part_001.

Definition fetchBanxico_of (v : version) (host : Adapter.Host)
  : Adapter.M Adapter.Cache :=
  match v with
  | index_js => Index.fetchBanxico host
  | part_001 => Part001.fetchBanxico host
  end.

Definition healthz_of (v : version) (host : Adapter.Host)
  : Adapter.M Adapter.HttpResponse :=
  match v with
  | index_js => Index.healthz host
  | part_001 => Part001.healthz host
  end.

Definition latest_of (v : version) (host : Adapter.Host)
  : Adapter.M Adapter.HttpResponse :=
  match v with
  | index_js => Index.latest host
  | part_001 => Part001.latest host
  end.


(* ================================================================== *)
(** * Vocabulary of the properties *)
(* ================================================================== *)

Import Js Adapter.

(** ** Numbers *)

(** The same double in the Standard Library's model of IEEE-754. *)
Definition to_spec_float (x : number) : spec_float :=
  match x with
  | NaN => S754_nan
  | Inf s => S754_infinity s
  | Zero s => S754_zero s
  | Fin s m e => S754_finite s m e
  end.

(** [p / q] computed there: both integers converted, then divided. *)
Definition sf_ratio (p q : Z) : spec_float :=
  SFdiv 53 1024 (binary_normalize 53 1024 p 0 false)
                (binary_normalize 53 1024 q 0 false).

Definition sf_eqb (x y : spec_float) : bool :=
  match x, y with
  | S754_nan, S754_nan => true
  | S754_zero s, S754_zero s' => Bool.eqb s s'
  | S754_infinity s, S754_infinity s' => Bool.eqb s s'
  | S754_finite s m e, S754_finite s' m' e' =>
      Bool.eqb s s' && Pos.eqb m m' && Z.eqb e e'
  | _, _ => false
  end.

Definition agrees_with_SpecFloat (p q : Z) : bool :=
  sf_eqb (sf_ratio p q) (to_spec_float (round_ratio false p q)).

Definition with_sign (neg : bool) (x : number) : number :=
  match x with
  | NaN => NaN
  | Inf _ => Inf neg
  | Zero _ => Zero neg
  | Fin _ m e => Fin neg m e
  end.

(** [2^k <= p / q] *)
Definition ge2 (p q k : Z) : Prop :=
  q * 2 ^ Z.max 0 k <= p * 2 ^ Z.max 0 (- k).

(** [x] rounded to [f] decimals: the double nearest to [n / 10^f], where [n]
    is the integer nearest to [|x| * 10^f], the larger one on a tie. *)
Definition rounded_to (f : Z) (x : number) : number :=
  match x with
  | Fin neg m e =>
      let '(p, q) := exact (Fin false m e) in
      round_decimal neg (nearest_scaled p q f) (- f)
  | Zero _ => Zero false
  | _ => x
  end.

(** ** Digit strings and decimal literals *)

Definition is_digit (c : ascii) : bool :=
  match digit_value 10 c with
  | Some _ => true
  | None => false
  end.

Fixpoint is_digits (s : string) : bool :=
  match s with
  | String c r => is_digit c && is_digits r
  | EmptyString => true
  end.

(** The number a digit string denotes, continuing from [acc]. *)
Fixpoint digits_value (s : string) (acc : Z) : Z :=
  match s with
  | String c r =>
      match digit_value 10 c with
      | Some d => digits_value r (acc * 10 + d)
      | None => acc
      end
  | EmptyString => acc
  end.

(** The first character, if any, is not a digit. *)
Definition stops (s : string) : bool :=
  match s with
  | String c _ => negb (is_digit c)
  | EmptyString => true
  end.

Fixpoint no_space (s : string) : bool :=
  match s with
  | String c r => negb (is_white_space c) && no_space r
  | EmptyString => true
  end.

Definition sign_text (neg : bool) : string := if neg then "-" else EmptyString.

Definition exponent_text (x : Z) : string :=
  "e" ++ (if x <? 0 then "-" else "+") ++ decimal_digits (Z.abs x).

(** [ds], then [.fs] if any, then an exponent if any. *)
Definition literal (ds : string) (fs : option string) (ex : option Z) : string :=
  ds ++
  match fs with Some f => "." ++ f | None => EmptyString end ++
  match ex with Some x => exponent_text x | None => EmptyString end.

Definition fraction_of (fs : option string) : string :=
  match fs with Some f => f | None => EmptyString end.

Definition exponent_of (ex : option Z) : Z :=
  match ex with Some x => x | None => 0 end.

(** Status codes print as their decimal digits. *)
Definition status_prints (n : nat) : bool :=
  String.eqb (Number_toString (of_Z (Z.of_nat n)))
             (decimal_digits (Z.of_nat n)).

(** The comma-joined elements of an array, as [ToString] computes them. *)
Fixpoint join (l : list value) : completion string :=
  match l with
  | [] => Normal EmptyString
  | x :: r =>
      bindc (match x with
             | VUndefined | VNull => Normal EmptyString
             | _ => ToString x
             end)
        (fun a =>
           match r with
           | [] => Normal a
           | _ => bindc (join r) (fun b => Normal (a ++ "," ++ b))
           end)
  end.

(** ** The program as a function of the upstream's answer *)

(** The world once the request has been sent. *)
Definition sent (host : Host) (w : World) : World :=
  {| cache := cache w; clock_reads := clock_reads w;
     requests := banxico_request host :: requests w |}.

Definition with_cache (c : Cache) (w : World) : World :=
  {| cache := c; clock_reads := clock_reads w; requests := requests w |}.

(** What the upstream answers to the next request. *)
Definition answer (host : Host) (w : World) : completion Response :=
  network host (List.length (requests w)) (banxico_request host).

Definition dato_of (j : value) : value :=
  opt (first_point j) (fun x => get x "dato").

Definition fecha_of (j : value) : value :=
  opt (first_point j) (fun x => get x "fecha").

(** The date field as each file reads it. *)
Definition read_fecha (v : version) (d : value) : completion value :=
  match v with
  | index_js => Normal d
  | part_001 => Part001.parseBanxicoDate d
  end.

(** The cache entry built from a parsed body, or the error thrown. *)
Definition quote_of_body (v : version) (host : Host) (j : value)
  : completion Cache :=
  let punto := first_point j in
  bindc (ToNumber (opt punto (fun x => get x "dato"))) (fun mid =>
  bindc (read_fecha v (opt punto (fun x => get x "fecha"))) (fun fecha =>
  if negb (isFinite mid) || negb (truthy fecha) then Throw parse_error else
  bindc (normalize_date host fecha) (fun iso =>
  Normal {| asOf := Some iso;
            usd_mxn_mid := Some (StringToNumber (toFixed mid 4));
            stale := false;
            raw := j |}))).

Definition quote_of_answer (v : version) (host : Host)
  (a : completion Response) : completion Cache :=
  bindc a (fun r =>
  if negb (ok r) then Throw (upstream_error r)
  else bindc (json r) (quote_of_body v host)).

(** The refresh decision reads the clock at most once and nothing else. *)
Definition after_decision (w : World) : World :=
  match asOf (cache w) with
  | Some (String _ _) =>
      {| cache := cache w; clock_reads := S (clock_reads w);
         requests := requests w |}
  | _ => w
  end.

(** [needsRefresh] as a function of the state it starts in. *)
Definition refresh_due (host : Host) (w : World) : bool :=
  match asOf (cache w) with
  | Some (String a s) =>
      gt (age host (clock host (clock_reads w)) (String a s))
         (env_number host "MAX_CACHE_MS" (60 * 60 * 1000))
  | _ => true
  end.

(** [isStale] as a function of the state it starts in. *)
Definition stale_flag (host : Host) (w : World) : bool :=
  match asOf (cache w) with
  | Some (String a s) =>
      gt (age host (clock host (clock_reads w)) (String a s))
         (of_Z 86400000)
  | _ => true
  end.

(** The body of a successful [/fx/usd-mxn/latest] answer. *)
Definition quote_response (host : Host) (w : World) : HttpResponse :=
  {| code := 200;
     body := QuoteBody (asOf (cache w)) (usd_mxn_mid (cache w))
               (BUY_SPREAD_BPS host) (SELL_SPREAD_BPS host) (SOURCE host)
               (stale_flag host w) |}.

Definition error_response (e : Error) : HttpResponse :=
  {| code := 502; body := ErrorBody (error_text e) |}.

(** ** The cache invariant and the versions' agreement *)

Definition complete (c : Cache) : Prop :=
  (asOf c = None /\ usd_mxn_mid c = None) \/
  (exists s x, asOf c = Some s /\ usd_mxn_mid c = Some x).

Definition kept_or_replaced (c c' : Cache) : Prop :=
  c' = c \/ exists iso x j, c' = mkCache (Some iso) (Some x) false j.

Inductive operation : Type := Refresh | HealthCheck | QuoteRead.

Definition perform (v : version) (host : Host) (op : operation) (w : World)
  : World :=
  match op with
  | Refresh => snd (fetchBanxico_of v host w)
  | HealthCheck => snd (healthz_of v host w)
  | QuoteRead => snd (latest_of v host w)
  end.

Definition start : World :=
  {| cache := initial_cache; clock_reads := 0; requests := [] |}.

Definition slash_free (d : value) : Prop :=
  match d with
  | VUndefined | VNull => True
  | VStr s => includes s "/" = false
  | _ => False
  end.

(** A date [parseBanxicoDate] returns as it is: a falsy value, a string
    without a slash, an array with no element "/".  Every other date is a
    string with a slash, which it rewrites, or a value whose [includes] or
    [split] is not a function. *)
Definition kept_date (d : value) : bool :=
  match d with
  | VStr s => negb (includes s "/")
  | VArr items =>
      negb (existsb (fun x => match x with
                              | VStr "/" => true
                              | _ => false
                              end) items)
  | _ => negb (truthy d)
  end.

(** ** Sample inputs *)

(** A body of the upstream with one series and one data point. *)
Definition payload (dato fecha : value) : value :=
  VObj [("bmx",
         VObj [("series",
                VArr [VObj [("idSerie", VStr "SF43718");
                            ("datos",
                             VArr [VObj [("fecha", fecha);
                                         ("dato", dato)]])]])])].

(** A host without environment variables, whose clock always reads [now],
    whose upstream always answers 200 with [body] and whose engine parses no
    date outside the standard format. *)
Definition answering (body : value) (now : Z) : Host :=
  {| env := fun _ => None;
     clock := fun _ => now;
     network := fun _ _ => Normal {| status := 200; json := Normal body |};
     engine_parse := fun _ => None |}.

Definition unavailable : Response := {| status := 503; json := Normal VNull |}.

(** The same host when the upstream always answers 503. *)
Definition outage (now : Z) : Host :=
  {| env := fun _ => None;
     clock := fun _ => now;
     network := fun _ _ => Normal unavailable;
     engine_parse := fun _ => None |}.

Definition scenario_payload : value :=
  payload (VStr "18.3452") (VStr "01/09/2025").

Definition iso_dated : value := payload (VStr "18.3452") (VStr "2025-09-01").

(** The JSON number 2025 and a body whose date is that number. *)
Definition year_number : value :=
  VNum {| dval := Fin false 8906044184985600 (-42); dcanon := eq_refl |}.

Definition number_dated : value := payload (VStr "18.3452") year_number.

Definition six_decimals : value :=
  payload (VStr "18.345678") (VStr "01/09/2025").

Definition six_decimals_quote : Cache :=
  {| asOf := Some "2025-09-01T18:00:00.000Z";
     usd_mxn_mid := Some (round_decimal false 183457 (-4));
     stale := false;
     raw := six_decimals |}.

(** A process that holds the quote of the scenario. *)
Definition populated : World :=
  {| cache := {| asOf := Some "2025-09-01T18:00:00.000Z";
                 usd_mxn_mid := Some (round_decimal false 183452 (-4));
                 stale := false;
                 raw := scenario_payload |};
     clock_reads := 0;
     requests := [] |}.

Definition two_hours_later : Z := 1756749600000 + 2 * 3600000.

Definition a_day_later : Z := 1756749600000 + 86400000.


(* ================================================================== *)
(** * Lemmas *)
(* ================================================================== *)

(** ** The Standard Library's division gives the same doubles *)

Lemma round_ratio_agrees_on_small_fractions :
  forallb (fun p => forallb (fun q => agrees_with_SpecFloat (Z.of_nat p)
                                        (Z.of_nat q)) (seq 1 64)) (seq 1 64)
  = true.
Proof. vm_compute. reflexivity. Qed.

Lemma round_ratio_agrees_on_decimals :
  forallb (fun p => agrees_with_SpecFloat p 10000)
    [1; 5; 49999; 50000; 50001; 183452; 183457; 9999999; 12345678901] = true.
Proof. vm_compute. reflexivity. Qed.

(** ** Integers as doubles *)

Lemma ilog2_ratio_int p : 0 < p -> ilog2_ratio p 1 = Z.log2 p.
Proof.
  intros Hp. unfold ilog2_ratio, scale2. change (Z.log2 1) with 0.
  rewrite Z.sub_0_r.
  pose proof (Z.log2_nonneg p) as Hl.
  destruct (Z.leb_spec 0 (Z.log2 p)); [|lia].
  pose proof (Z.log2_spec p Hp) as [Hlo _].
  rewrite Z.mul_1_l.
  destruct (Z.leb_spec (2 ^ Z.log2 p) p); [reflexivity|lia].
Qed.

Lemma round_half_even_exact n : round_half_even n 1 = n.
Proof.
  unfold round_half_even. rewrite Z.mod_1_r, Z.div_1_r. reflexivity.
Qed.

(** Below [2^53] an integer is a double. *)
Lemma round_ratio_small neg p :
  0 < p < 2 ^ 53 ->
  exists m e, round_ratio neg p 1 = Fin neg m e /\ e <= 0 /\
              Zpos m = p * 2 ^ (- e).
Proof.
  intros [Hp Hlt]. unfold round_ratio.
  destruct (Z.leb_spec p 0); [lia|].
  rewrite ilog2_ratio_int by assumption.
  pose proof (Z.log2_spec p Hp) as [Hlo Hhi].
  pose proof (Z.log2_nonneg p) as Hl.
  assert (Hl52 : Z.log2 p <= 52).
  { destruct (Z_le_gt_dec (Z.log2 p) 52); [assumption|].
    assert (2 ^ 53 <= 2 ^ Z.log2 p) by (apply Z.pow_le_mono_r; lia). lia. }
  rewrite Z.max_l by lia.
  set (e := Z.log2 p - 52).
  assert (Hm : 2 ^ 52 <= p * 2 ^ (- e) < 2 ^ 53).
  { replace (2 ^ 52) with (2 ^ Z.log2 p * 2 ^ (- e)).
    2:{ rewrite <- Z.pow_add_r by lia. f_equal. lia. }
    replace (2 ^ 53) with (2 ^ Z.succ (Z.log2 p) * 2 ^ (- e)).
    2:{ rewrite <- Z.pow_add_r by lia. f_equal. lia. }
    assert (0 < 2 ^ (- e)) by (apply Z.pow_pos_nonneg; lia).
    split; [apply Z.mul_le_mono_nonneg_r | apply Z.mul_lt_mono_pos_r]; lia. }
  unfold scale2.
  destruct (Z.leb_spec 0 e) as [He|He].
  - assert (e = 0) by lia. 
    replace (2 ^ e) with 1 by (subst e; rewrite H0; reflexivity).
    rewrite round_half_even_exact.
    replace (- e) with 0 in Hm by lia. rewrite Z.mul_1_r in Hm.
    destruct (Z.eqb_spec p (2 ^ 53)); [lia|].
    destruct (Z.leb_spec p 0); [lia|].
    destruct (Z.ltb_spec 971 e); [lia|].
    exists (Z.to_pos p), e. rewrite Z2Pos.id by lia.
    replace (- e) with 0 by lia. split; [reflexivity|]. split; lia.
  - rewrite round_half_even_exact.
    destruct (Z.eqb_spec (p * 2 ^ (- e)) (2 ^ 53)); [lia|].
    destruct (Z.leb_spec (p * 2 ^ (- e)) 0); [lia|].
    destruct (Z.ltb_spec 971 e); [lia|].
    exists (Z.to_pos (p * 2 ^ (- e))), e. rewrite Z2Pos.id by lia.
    split; [reflexivity|]. split; lia.
Qed.

Lemma round_half_even_bounds n d :
  0 < d -> n / d <= round_half_even n d <= n / d + 1.
Proof.
  intros Hd. unfold round_half_even.
  destruct (2 * (n mod d) ?= d); [destruct (Z.even (n / d))| |]; lia.
Qed.

Lemma round_ratio_sign neg p q :
  round_ratio neg p q = Zero neg \/ round_ratio neg p q = Inf neg \/
  exists m e, round_ratio neg p q = Fin neg m e.
Proof.
  unfold round_ratio.
  destruct (p <=? 0); [auto|].
  destruct (scale2 p q _) as [n d].
  destruct (round_half_even n d =? 2 ^ 53).
  - destruct (2 ^ 52 <=? 0); [auto|].
    destruct (971 <? _); [auto|]. right; right; eauto.
  - destruct (round_half_even n d <=? 0); [auto|].
    destruct (971 <? _); [auto|]. right; right; eauto.
Qed.

(** From [2^53] on an integer rounds to a double that is at least [2^53]. *)
Lemma round_ratio_large neg p :
  2 ^ 53 <= p ->
  round_ratio neg p 1 = Inf neg \/
  exists m e, round_ratio neg p 1 = Fin neg m e /\ 0 <= e /\
              2 ^ 53 <= Zpos m * 2 ^ e.
Proof.
  intros Hp. unfold round_ratio.
  destruct (Z.leb_spec p 0); [lia|].
  rewrite ilog2_ratio_int by lia.
  pose proof (Z.log2_spec p ltac:(lia)) as [Hlo Hhi].
  assert (Hl53 : 53 <= Z.log2 p).
  { destruct (Z_le_gt_dec 53 (Z.log2 p)); [assumption|].
    assert (2 ^ Z.succ (Z.log2 p) <= 2 ^ 53) by (apply Z.pow_le_mono_r; lia).
    lia. }
  rewrite Z.max_l by lia.
  set (e := Z.log2 p - 52) in *.
  assert (He : 1 <= e) by lia.
  unfold scale2. destruct (Z.leb_spec 0 e); [|lia].
  rewrite Z.mul_1_l.
  assert (Hpe : 0 < 2 ^ e) by (apply Z.pow_pos_nonneg; lia).
  assert (Hfl : 2 ^ 52 <= p / 2 ^ e).
  { apply Z.div_le_lower_bound; [assumption|].
    replace (2 ^ e * 2 ^ 52) with (2 ^ Z.log2 p); [assumption|].
    rewrite <- Z.pow_add_r by lia. f_equal. lia. }
  pose proof (round_half_even_bounds p (2 ^ e) Hpe) as Hb.
  assert (H2e : 2 <= 2 ^ e).
  { change 2 with (2 ^ 1) at 1. apply Z.pow_le_mono_r; lia. }
  destruct (Z.eqb_spec (round_half_even p (2 ^ e)) (2 ^ 53)).
  - destruct (Z.leb_spec (2 ^ 52) 0); [lia|].
    destruct (Z.ltb_spec 971 (e + 1)); [auto|]. right.
    exists (Z.to_pos (2 ^ 52)), (e + 1). split; [reflexivity|].
    split; [lia|]. rewrite Z2Pos.id by lia.
    rewrite Z.pow_add_r by lia. nia.
  - destruct (Z.leb_spec (round_half_even p (2 ^ e)) 0); [lia|].
    destruct (Z.ltb_spec 971 e); [auto|]. right.
    exists (Z.to_pos (round_half_even p (2 ^ e))), e.
    split; [reflexivity|]. split; [lia|]. rewrite Z2Pos.id by lia. nia.
Qed.

Lemma scale2_pos p q e :
  0 < p -> 0 < q -> 0 < fst (scale2 p q e) /\ 0 < snd (scale2 p q e).
Proof.
  intros Hp Hq. unfold scale2. destruct (Z.leb_spec 0 e); simpl.
  - assert (0 < 2 ^ e) by (apply Z.pow_pos_nonneg; lia). nia.
  - assert (0 < 2 ^ (- e)) by (apply Z.pow_pos_nonneg; lia). nia.
Qed.

Lemma compare_finite x y :
  isFinite x = true -> isFinite y = true ->
  compare x y = Some (fst (exact x) * snd (exact y) ?=
                      fst (exact y) * snd (exact x)).
Proof.
  intros Hx Hy.
  destruct x; try discriminate; destruct y; try discriminate;
    unfold compare; destruct (exact _) as [n1 d1]; try reflexivity;
    destruct (exact _) as [n2 d2]; reflexivity.
Qed.

(** The value of [of_Z z] for [|z| < 2^53] is [z]. *)
Lemma of_Z_exact z :
  Z.abs z < 2 ^ 53 ->
  isFinite (of_Z z) = true /\
  0 < snd (exact (of_Z z)) /\
  fst (exact (of_Z z)) = z * snd (exact (of_Z z)).
Proof.
  intros Hz. unfold of_Z.
  destruct (Z.eq_dec z 0) as [->|Hnz].
  - simpl. repeat split; lia.
  - destruct (round_ratio_small (z <? 0) (Z.abs z)) as (m & e & -> & He & Hm);
      [lia|].
    cbn [isFinite exact]. unfold scale2.
    destruct (Z.leb_spec 0 (- e)); [|lia]. rewrite Z.mul_1_l.
    assert (0 < 2 ^ (- e)) by (apply Z.pow_pos_nonneg; lia).
    destruct (Z.ltb_spec z 0); cbn [fst snd]; repeat split; lia.
Qed.

Lemma gt_of_Z a k :
  0 <= k < 2 ^ 53 -> gt (of_Z a) (of_Z k) = (k <? a).
Proof.
  intros Hk. unfold gt.
  destruct (of_Z_exact k) as (Fk & Dk & Ek); [lia|].
  destruct (Z_lt_ge_dec (Z.abs a) (2 ^ 53)) as [Ha|Ha].
  - destruct (of_Z_exact a Ha) as (Fa & Da & Ea).
    rewrite compare_finite by assumption. rewrite Ea, Ek.
    set (da := snd (exact (of_Z a))) in *.
    set (dk := snd (exact (of_Z k))) in *.
    replace (a * da * dk) with (a * (da * dk)) by ring.
    replace (k * dk * da) with (k * (da * dk)) by ring.
    rewrite <- Zmult_compare_compat_r by nia.
    destruct (Z.ltb_spec k a) as [L|L].
    + apply Z.gt_lt_iff in L. unfold Z.gt in L. now rewrite L.
    + apply Z.compare_le_iff in L.
      destruct (a ?= k); try reflexivity. now elim L.
  - destruct (Z_lt_ge_dec a 0) as [Hneg|Hpos].
    + (* far below zero *)
      destruct (Z.ltb_spec k a); [lia|].
      unfold of_Z at 1. destruct (Z.ltb_spec a 0); [|lia].
      destruct (round_ratio_sign true (Z.abs a) 1) as [E|[E|(m & e & E)]];
        rewrite E.
      * rewrite compare_finite by auto. cbn [exact fst snd]. rewrite Ek.
        destruct (_ ?= _) eqn:C; try reflexivity.
        apply Z.compare_gt_iff in C. nia.
      * destruct (of_Z k); try discriminate; reflexivity.
      * rewrite compare_finite by auto. rewrite Ek. cbn [exact].
        pose proof (scale2_pos (Zpos m) 1 (- e) ltac:(lia) ltac:(lia)) as [P1 P2].
        destruct (scale2 _ _ _) as [n d]. cbn [fst snd] in *.
        destruct (_ ?= _) eqn:C; try reflexivity.
        apply Z.compare_gt_iff in C. nia.
    + destruct (Z.ltb_spec k a); [|lia].
      unfold of_Z at 1. destruct (Z.ltb_spec a 0); [lia|].
      destruct (round_ratio_large false (Z.abs a)) as [E|(m & e & E & He & Hm)];
        [lia| |]; rewrite E.
      * destruct (of_Z k); try discriminate; reflexivity.
      * rewrite compare_finite by auto. rewrite Ek. cbn [exact].
        unfold scale2.
        assert (0 < 2 ^ e) by (apply Z.pow_pos_nonneg; lia).
        destruct (Z.leb_spec 0 (- e)); cbn [fst snd].
        -- assert (e = 0) by lia. subst e.
           change (2 ^ 0) with 1 in Hm. change (2 ^ (- 0)) with 1.
           assert (C : k * snd (exact (of_Z k)) * (1 * 1) <
                       Zpos m * snd (exact (of_Z k))) by nia.
           apply Z.compare_gt_iff in C. now rewrite C.
        -- rewrite Z.opp_involutive.
           assert (C : k * snd (exact (of_Z k)) * 1 <
                       Zpos m * 2 ^ e * snd (exact (of_Z k))) by nia.
           apply Z.compare_gt_iff in C. now rewrite C.
Qed.

(** ** Rounding to a double *)

Lemma pow2_pos k : 0 <= k -> 0 < 2 ^ k.
Proof. intros. apply Z.pow_pos_nonneg; lia. Qed.

Lemma scale2_eq p q e :
  scale2 p q e = (p * 2 ^ Z.max 0 (- e), q * 2 ^ Z.max 0 e).
Proof.
  unfold scale2. destruct (Z.leb_spec 0 e).
  - rewrite Z.max_l, Z.max_r by lia. now rewrite Z.mul_1_r.
  - rewrite Z.max_r, Z.max_l by lia. now rewrite Z.mul_1_r.
Qed.

Lemma ge2_shift p q k u v :
  0 <= u -> 0 <= v -> u - v = k ->
  (q * 2 ^ u <= p * 2 ^ v <-> ge2 p q k).
Proof.
  intros Hu Hv E. unfold ge2.
  set (a := Z.max 0 k). set (b := Z.max 0 (- k)).
  assert (Ha : 0 <= a) by (unfold a; lia).
  assert (Hb : 0 <= b) by (unfold b; lia).
  assert (Hab : u + b = a + v) by (unfold a, b; lia).
  pose proof (pow2_pos b Hb). pose proof (pow2_pos v Hv).
  assert (X : q * 2 ^ u * 2 ^ b = q * 2 ^ a * 2 ^ v).
  { rewrite <- !Z.mul_assoc, <- !Z.pow_add_r by lia. now rewrite Hab. }
  assert (Y : p * 2 ^ v * 2 ^ b = p * 2 ^ b * 2 ^ v) by ring.
  split; intros L.
  - apply (Z.mul_le_mono_pos_r _ _ (2 ^ v)); [assumption|].
    rewrite <- X, <- Y. apply Z.mul_le_mono_nonneg_r; lia.
  - apply (Z.mul_le_mono_pos_r _ _ (2 ^ b)); [assumption|].
    rewrite X, Y. apply Z.mul_le_mono_nonneg_r; lia.
Qed.

Lemma ge2_anti p q k k' :
  0 < p -> 0 < q -> k <= k' -> ge2 p q k' -> ge2 p q k.
Proof.
  intros Hp Hq Hk H.
  set (t := Z.max 0 (- k)).
  assert (Ht : 0 <= t) by (unfold t; lia).
  apply (ge2_shift p q k' (k' + t) t) in H; [|lia..].
  apply (ge2_shift p q k (k + t) t); [unfold t; lia|lia|lia|].
  eapply Z.le_trans; [|exact H].
  apply Z.mul_le_mono_nonneg_l; [lia|].
  apply Z.pow_le_mono_r; unfold t; lia.
Qed.

Lemma ge2_scale c p q k : 0 < c -> (ge2 (c * p) (c * q) k <-> ge2 p q k).
Proof.
  intros Hc. unfold ge2. rewrite <- !Z.mul_assoc.
  split; intros H.
  - now apply Z.mul_le_mono_pos_l in H.
  - now apply Z.mul_le_mono_pos_l.
Qed.

Lemma ge2_scaled p q e k :
  ge2 (fst (scale2 p q e)) (snd (scale2 p q e)) k <-> ge2 p q (k + e).
Proof.
  rewrite scale2_eq. cbn [fst snd]. unfold ge2 at 1.
  rewrite <- !Z.mul_assoc, <- !Z.pow_add_r by lia.
  apply ge2_shift; lia.
Qed.

(** [ilog2_ratio] is the integer logarithm of the quotient. *)
Lemma ilog2_ratio_spec p q :
  0 < p -> 0 < q ->
  ge2 p q (ilog2_ratio p q) /\ ~ ge2 p q (ilog2_ratio p q + 1).
Proof.
  intros Hp Hq.
  pose proof (Z.log2_spec p Hp) as [P1 P2].
  pose proof (Z.log2_spec q Hq) as [Q1 Q2].
  pose proof (Z.log2_nonneg p) as Lp. pose proof (Z.log2_nonneg q) as Lq.
  pose proof (pow2_pos _ Lp). pose proof (pow2_pos _ Lq).
  rewrite Z.pow_succ_r in P2, Q2 by assumption.
  set (l := Z.log2 p - Z.log2 q).
  assert (A : ge2 p q (l - 1)).
  { apply (ge2_shift p q (l - 1) (Z.log2 p) (Z.log2 q + 1)); [lia|lia|unfold l; lia|].
    rewrite Z.pow_add_r by lia. change (2 ^ 1) with 2. nia. }
  assert (B : ~ ge2 p q (l + 1)).
  { intros G.
    apply (ge2_shift p q (l + 1) (Z.log2 p + 1) (Z.log2 q)) in G;
      [|lia|lia|unfold l; lia].
    rewrite Z.pow_add_r in G by lia. change (2 ^ 1) with 2 in G. nia. }
  unfold ilog2_ratio. fold l.
  pose proof (ge2_scaled p q l 0) as S. rewrite Z.add_0_l in S.
  destruct (scale2 p q l) as [n d]. cbn [fst snd] in S.
  unfold ge2 at 1 in S. cbn [Z.max Z.opp Z.compare] in S.
  change (2 ^ 0) with 1 in S. rewrite !Z.mul_1_r in S.
  destruct (Z.leb_spec d n) as [L|L].
  - split; [now apply S|exact B].
  - split; [exact A|]. replace (l - 1 + 1) with l by lia.
    intros G. apply S in G. lia.
Qed.

Lemma ilog2_ratio_unique p q l :
  0 < p -> 0 < q -> ge2 p q l -> ~ ge2 p q (l + 1) -> ilog2_ratio p q = l.
Proof.
  intros Hp Hq G N.
  destruct (ilog2_ratio_spec p q Hp Hq) as [G' N'].
  destruct (Z.lt_trichotomy (ilog2_ratio p q) l) as [L|[E|L]]; [|exact E|].
  - elim N'. apply (ge2_anti p q _ l); assumption || lia.
  - elim N. apply (ge2_anti p q _ (ilog2_ratio p q)); assumption || lia.
Qed.

Lemma ilog2_ratio_scale c p q :
  0 < c -> 0 < p -> 0 < q -> ilog2_ratio (c * p) (c * q) = ilog2_ratio p q.
Proof.
  intros Hc Hp Hq.
  destruct (ilog2_ratio_spec p q Hp Hq) as [G N].
  apply ilog2_ratio_unique; [nia|nia| |].
  - now apply ge2_scale.
  - intros H. apply N. now apply ge2_scale in H.
Qed.

Lemma round_half_even_scale c n d :
  0 < c -> 0 < d -> round_half_even (c * n) (c * d) = round_half_even n d.
Proof.
  intros Hc Hd. unfold round_half_even.
  rewrite Z.div_mul_cancel_l, Z.mul_mod_distr_l by lia.
  replace (2 * (c * (n mod d))) with (c * (2 * (n mod d))) by ring.
  rewrite <- Zmult_compare_compat_l by lia. reflexivity.
Qed.

Lemma round_ratio_scale neg c p q :
  0 < c -> 0 < q -> round_ratio neg (c * p) (c * q) = round_ratio neg p q.
Proof.
  intros Hc Hq. unfold round_ratio.
  destruct (Z.leb_spec p 0) as [P|P].
  - destruct (Z.leb_spec (c * p) 0); [reflexivity|nia].
  - destruct (Z.leb_spec (c * p) 0); [nia|].
    rewrite ilog2_ratio_scale by assumption.
    rewrite !scale2_eq.
    rewrite <- !Z.mul_assoc.
    rewrite round_half_even_scale; [reflexivity|assumption|].
    pose proof (pow2_pos (Z.max 0 (Z.max (ilog2_ratio p q - 52) (-1074)))
                  ltac:(lia)).
    nia.
Qed.

Lemma round_ratio_with_sign neg p q :
  round_ratio neg p q = with_sign neg (round_ratio false p q).
Proof.
  unfold round_ratio.
  destruct (p <=? 0); [reflexivity|].
  destruct (scale2 p q _) as [n d].
  destruct (round_half_even n d =? 2 ^ 53).
  - destruct (2 ^ 52 <=? 0); [reflexivity|].
    destruct (971 <? _); reflexivity.
  - destruct (round_half_even n d <=? 0); [reflexivity|].
    destruct (971 <? _); reflexivity.
Qed.

Lemma round_decimal_with_sign neg m e :
  round_decimal neg m e = with_sign neg (round_decimal false m e).
Proof.
  unfold round_decimal. destruct (0 <=? e); apply round_ratio_with_sign.
Qed.

Lemma div_ge2 n d k :
  0 < d -> 0 <= k -> (2 ^ k <= n / d <-> ge2 n d k).
Proof.
  intros Hd Hk. unfold ge2. rewrite Z.max_r, Z.max_l by lia.
  change (2 ^ 0) with 1. rewrite Z.mul_1_r.
  pose proof (pow2_pos k Hk) as Pk.
  split; intros H.
  - pose proof (Z.mul_div_le n d Hd). nia.
  - apply Z.div_le_lower_bound; lia.
Qed.

Ltac bool_lia :=
  rewrite ?orb_true_iff, ?andb_true_iff, ?Z.leb_le, ?Z.ltb_lt, ?Z.eqb_eq; lia.

(** Every result of [round_ratio] is a double. *)
Lemma round_ratio_canonical neg p q :
  0 < q -> canonical (round_ratio neg p q) = true.
Proof.
  intros Hq. unfold round_ratio.
  destruct (Z.leb_spec p 0) as [Hp|Hp]; [reflexivity|].
  destruct (ilog2_ratio_spec p q Hp Hq) as [G N].
  set (l := ilog2_ratio p q) in *.
  set (e := Z.max (l - 52) (-1074)).
  pose proof (ge2_scaled p q e) as S.
  pose proof (scale2_pos p q e Hp Hq) as [Pn Pd].
  destruct (scale2 p q e) as [n d]. cbn [fst snd] in *.
  pose proof (round_half_even_bounds n d Pd) as B.
  set (r := round_half_even n d) in *.
  assert (Hi : n / d < 2 ^ 53).
  { destruct (Z_lt_ge_dec (n / d) (2 ^ 53)) as [|C]; [assumption|].
    exfalso. apply N. apply Z.ge_le in C. apply div_ge2 in C; [|assumption|lia].
    apply S in C. apply (ge2_anti p q _ (53 + e)); [assumption..|unfold e; lia|].
    exact C. }
  assert (Lo : e = l - 52 -> 2 ^ 52 <= n / d).
  { intros E. apply div_ge2; [assumption|lia|]. apply S.
    now replace (52 + e) with l by lia. }
  assert (Sub : e <> l - 52 -> n / d < 2 ^ 52).
  { intros E. destruct (Z_lt_ge_dec (n / d) (2 ^ 52)) as [|C]; [assumption|].
    exfalso. apply N. apply Z.ge_le in C. apply div_ge2 in C; [|assumption|lia].
    apply S in C. apply (ge2_anti p q _ (52 + e)); [assumption..|unfold e; lia|].
    exact C. }
  assert (He : -1074 <= e) by (unfold e; lia).
  destruct (Z.eqb_spec r (2 ^ 53)) as [R|R].
  - destruct (Z.leb_spec (2 ^ 52) 0); [reflexivity|].
    destruct (Z.ltb_spec 971 (e + 1)); [reflexivity|].
    unfold canonical. rewrite Z2Pos.id by lia. bool_lia.
  - destruct (Z.leb_spec r 0); [reflexivity|].
    destruct (Z.ltb_spec 971 e); [reflexivity|].
    unfold canonical. rewrite Z2Pos.id by lia.
    destruct (Z.eq_dec e (l - 52)) as [E|E].
    + specialize (Lo E). bool_lia.
    + specialize (Sub E). assert (e = -1074) by (unfold e in *; lia). bool_lia.
Qed.

Lemma canonical_bounds neg m e :
  canonical (Fin neg m e) = true ->
  Zpos m < 2 ^ 53 /\ -1074 <= e <= 971 /\
  Z.max (Z.log2 (Zpos m) + e - 52) (-1074) = e.
Proof.
  unfold canonical. intros H. apply orb_true_iff in H as [H|H].
  - rewrite !andb_true_iff in H. destruct H as [[[A B] C] D].
    apply Z.leb_le in A, C, D. apply Z.ltb_lt in B.
    assert (Z.log2 (Zpos m) = 52).
    { apply Z.log2_unique; [lia|]. change (2 ^ (52 + 1)) with (2 ^ 53). lia. }
    lia.
  - rewrite andb_true_iff in H. destruct H as [A B].
    apply Z.ltb_lt in A. apply Z.eqb_eq in B.
    assert (Z.log2 (Zpos m) < 52).
    { apply Z.log2_lt_pow2; lia. }
    lia.
Qed.

(** A double rounds to itself. *)
Lemma round_ratio_exact neg m e :
  canonical (Fin neg m e) = true ->
  round_ratio neg (fst (exact (Fin false m e))) (snd (exact (Fin false m e)))
  = Fin neg m e.
Proof.
  intros C. destruct (canonical_bounds neg m e C) as (Hm & He & Emax).
  cbn [exact]. rewrite scale2_eq. cbn [fst snd].
  rewrite Z.opp_involutive, Z.mul_1_l.
  set (a := Z.max 0 e). set (b := Z.max 0 (- e)).
  assert (Ha : 0 <= a) by (unfold a; lia).
  assert (Hb : 0 <= b) by (unfold b; lia).
  pose proof (pow2_pos a Ha) as Pa. pose proof (pow2_pos b Hb) as Pb.
  unfold round_ratio.
  destruct (Z.leb_spec (Zpos m * 2 ^ a) 0); [nia|].
  assert (Eab : a - b = e) by (unfold a, b; lia).
  assert (L : ilog2_ratio (Zpos m * 2 ^ a) (2 ^ b) = Z.log2 (Zpos m) + e).
  { pose proof (Z.log2_spec (Zpos m) ltac:(lia)) as [L1 L2].
    pose proof (Z.log2_nonneg (Zpos m)) as L0.
    pose proof (pow2_pos _ L0) as Pl.
    rewrite Z.pow_succ_r in L2 by assumption.
    apply ilog2_ratio_unique; [nia|lia| |].
    - apply (ge2_shift _ _ _ (Z.log2 (Zpos m) + a) b); [lia|lia|lia|].
      rewrite Z.pow_add_r by lia. nia.
    - intros G.
      apply (ge2_shift _ _ _ (Z.log2 (Zpos m) + 1 + a) b) in G; [|lia|lia|lia].
      rewrite !Z.pow_add_r in G by lia. change (2 ^ 1) with 2 in G. nia. }
  rewrite L, Emax, scale2_eq. fold a b.
  replace (Zpos m * 2 ^ a * 2 ^ b) with (Zpos m * (2 ^ b * 2 ^ a)) by ring.
  assert (Pab : 0 < 2 ^ b * 2 ^ a) by nia.
  unfold round_half_even.
  rewrite Z.div_mul, Z.mod_mul by lia.
  replace (2 * 0 ?= 2 ^ b * 2 ^ a) with Lt
    by (symmetry; apply Z.compare_lt_iff; lia).
  destruct (Z.eqb_spec (Zpos m) (2 ^ 53)); [lia|].
  destruct (Z.leb_spec (Zpos m) 0); [lia|].
  destruct (Z.ltb_spec 971 e); [lia|].
  reflexivity.
Qed.

(** ** Decimal digit strings *)

Ltac each_char c :=
  destruct c as [[] [] [] [] [] [] [] []].

Lemma digit_facts c :
  is_digit c = true ->
  is_white_space c = false /\
  is_char c ["+"; "-"; "."; "e"; "E"; "x"; "X"; "o"; "O"; "b"; "B"; "I"]%char
    = false.
Proof. each_char c; vm_compute; intros; (discriminate || split; reflexivity). Qed.

Lemma digit_value_range c d : digit_value 10 c = Some d -> 0 <= d <= 9.
Proof. each_char c; vm_compute; intros [= <-]; split; discriminate. Qed.

Lemma digit_value_digit_char d :
  0 <= d <= 9 -> digit_value 10 (digit_char d) = Some d.
Proof.
  intros H.
  assert (C : d = 0 \/ d = 1 \/ d = 2 \/ d = 3 \/ d = 4 \/ d = 5 \/ d = 6 \/
              d = 7 \/ d = 8 \/ d = 9) by lia.
  repeat (destruct C as [->|C]; [reflexivity|]). subst. reflexivity.
Qed.

Lemma is_digit_digit_char d : 0 <= d <= 9 -> is_digit (digit_char d) = true.
Proof. intros H. unfold is_digit. now rewrite digit_value_digit_char. Qed.

Lemma append_nil_r s : s ++ EmptyString = s.
Proof. induction s as [|c s IH]; [reflexivity|]. simpl. now rewrite IH. Qed.

Lemma append_assoc a b c : (a ++ b) ++ c = a ++ (b ++ c).
Proof. induction a as [|x a IH]; [reflexivity|]. simpl. now rewrite IH. Qed.

Lemma slen_nonneg s : 0 <= slen s.
Proof. unfold slen. lia. Qed.

Lemma slen_String c s : slen (String c s) = slen s + 1.
Proof. unfold slen. simpl String.length. lia. Qed.

Lemma slen_app a b : slen (a ++ b) = slen a + slen b.
Proof.
  induction a as [|c a IH]; [reflexivity|].
  simpl append. rewrite !slen_String, IH. lia.
Qed.

Lemma is_digits_app a b : is_digits (a ++ b) = is_digits a && is_digits b.
Proof.
  induction a as [|c a IH]; [reflexivity|].
  simpl. rewrite IH. now rewrite andb_assoc.
Qed.

Lemma scan_digits_app ds rest acc cnt :
  is_digits ds = true -> stops rest = true ->
  scan_digits 10 (ds ++ rest) acc cnt =
  (digits_value ds acc, cnt + slen ds, rest).
Proof.
  revert acc cnt. induction ds as [|c ds IH]; intros acc cnt D S.
  - simpl append. rewrite Z.add_0_r. simpl digits_value.
    destruct rest as [|c r]; [reflexivity|].
    simpl in S. unfold is_digit in S. simpl scan_digits.
    destruct (digit_value 10 c); [discriminate|reflexivity].
  - simpl in D. apply andb_true_iff in D as [Dc D].
    unfold is_digit in Dc. simpl append. simpl scan_digits. simpl digits_value.
    destruct (digit_value 10 c) as [d|]; [|discriminate].
    rewrite IH by assumption. rewrite slen_String. f_equal. f_equal. lia.
Qed.

Lemma digits_value_app a b acc :
  is_digits a = true ->
  digits_value (a ++ b) acc = digits_value b (digits_value a acc).
Proof.
  revert acc. induction a as [|c a IH]; intros acc D; [reflexivity|].
  simpl in D. apply andb_true_iff in D as [Dc D]. unfold is_digit in Dc.
  simpl. destruct (digit_value 10 c); [|discriminate]. now apply IH.
Qed.

Lemma digits_value_acc s acc :
  is_digits s = true ->
  digits_value s acc = acc * 10 ^ slen s + digits_value s 0.
Proof.
  revert acc. induction s as [|c s IH]; intros acc D.
  - simpl. change (slen EmptyString) with 0. lia.
  - simpl in D. apply andb_true_iff in D as [Dc D]. unfold is_digit in Dc.
    cbn [digits_value]. destruct (digit_value 10 c) as [d|]; [|discriminate].
    rewrite (IH (acc * 10 + d)), (IH (0 * 10 + d)) by assumption.
    rewrite slen_String, Z.pow_add_r by (pose proof (slen_nonneg s); lia).
    ring.
Qed.

Lemma digits_value_nonneg s acc :
  0 <= acc -> 0 <= digits_value s acc.
Proof.
  revert acc. induction s as [|c s IH]; intros acc H; [exact H|].
  simpl. destruct (digit_value 10 c) as [d|] eqn:E; [|exact H].
  apply digit_value_range in E. apply IH. lia.
Qed.

(** [digits_fuel] prints [n] in front of the accumulator. *)
Lemma digits_fuel_spec fuel n acc :
  0 <= n < 2 ^ Z.of_nat (S fuel) ->
  exists ds, digits_fuel (S fuel) n acc = ds ++ acc /\
             is_digits ds = true /\ digits_value ds 0 = n /\ 0 < slen ds.
Proof.
  revert n acc. induction fuel as [|f IH]; intros n acc H;
    cbn [digits_fuel];
    assert (Hm : 0 <= n mod 10 <= 9)
      by (pose proof (Z.mod_pos_bound n 10); lia);
    assert (One : n < 10 ->
              exists ds, String (digit_char (n mod 10)) acc = ds ++ acc /\
                is_digits ds = true /\ digits_value ds 0 = n /\ 0 < slen ds).
  1, 3: intros L; exists (str1 (digit_char n)); rewrite Z.mod_small by lia;
        (split; [reflexivity|]); (split;
        [simpl; rewrite is_digit_digit_char by lia; reflexivity|]);
        simpl; rewrite digit_value_digit_char by lia;
        (split; [lia|]); unfold slen, str1; simpl; lia.
  - destruct (Z.ltb_spec n 10) as [L|L]; [now apply One|].
    change (2 ^ Z.of_nat 1) with 2 in H. lia.
  - destruct (Z.ltb_spec n 10) as [L|L]; [now apply One|].
    destruct (IH (n / 10) (String (digit_char (n mod 10)) acc))
      as (ds & E & D & V & Len).
    { split; [apply Z.div_pos; lia|].
      apply Z.div_lt_upper_bound; [lia|].
      rewrite (Nat2Z.inj_succ (S f)), Z.pow_succ_r in H by lia. lia. }
    exists (ds ++ str1 (digit_char (n mod 10))).
    split; [|split; [|split]].
    + cbn [digits_fuel] in E. rewrite E. now rewrite append_assoc.
    + rewrite is_digits_app, D. simpl.
      rewrite is_digit_digit_char by lia. reflexivity.
    + rewrite digits_value_app by assumption. rewrite V. simpl.
      rewrite digit_value_digit_char by lia.
      pose proof (Z.div_mod n 10). lia.
    + rewrite slen_app.
      pose proof (slen_nonneg (str1 (digit_char (n mod 10)))). lia.
Qed.

Lemma decimal_digits_spec n :
  0 <= n ->
  is_digits (decimal_digits n) = true /\
  digits_value (decimal_digits n) 0 = n /\
  0 < slen (decimal_digits n).
Proof.
  intros H. unfold decimal_digits.
  destruct (digits_fuel_spec (Z.to_nat (Z.log2 n)) n EmptyString) as (ds & E & D & V & L).
  - split; [assumption|].
    rewrite Nat2Z.inj_succ, Z2Nat.id by apply Z.log2_nonneg.
    destruct (Z.eq_dec n 0) as [->|]; [reflexivity|].
    apply Z.log2_spec. lia.
  - rewrite E, append_nil_r. auto.
Qed.

Lemma repeat_zero_spec k acc :
  is_digits (repeat_char "0" k) = true /\
  digits_value (repeat_char "0" k) acc = acc * 10 ^ Z.of_nat k /\
  slen (repeat_char "0" k) = Z.of_nat k.
Proof.
  revert acc. induction k as [|k IH]; intros acc.
  - simpl. unfold slen. simpl. lia.
  - destruct (IH (acc * 10 + 0)) as (D & V & L).
    cbn [repeat_char is_digits digits_value].
    change (is_digit "0") with true. change (digit_value 10 "0") with (Some 0).
    rewrite slen_String, L, V, Nat2Z.inj_succ, Z.pow_succ_r by lia.
    cbn [andb]. split; [assumption|]. split; [ring|lia].
Qed.

Lemma pad_zeros_spec w s :
  is_digits s = true ->
  is_digits (pad_zeros w s) = true /\
  digits_value (pad_zeros w s) 0 = digits_value s 0 /\
  slen (pad_zeros w s) = Z.max w (slen s).
Proof.
  intros D. unfold pad_zeros.
  destruct (repeat_zero_spec (Z.to_nat (w - slen s)) 0) as (D0 & V0 & L0).
  rewrite is_digits_app, D0, D, digits_value_app, V0, slen_app, L0 by assumption.
  pose proof (slen_nonneg s). rewrite Z.mul_0_l.
  split; [reflexivity|]. split; [reflexivity|lia].
Qed.

Lemma substring_all s : substring 0 (String.length s) s = s.
Proof. induction s as [|c s IH]; [reflexivity|]. simpl. now rewrite IH. Qed.

Lemma substring_split s n :
  (n <= String.length s)%nat ->
  substring 0 n s ++ substring n (String.length s - n) s = s /\
  String.length (substring 0 n s) = n.
Proof.
  revert n. induction s as [|c s IH]; intros n H.
  - simpl in H. assert (n = 0)%nat by lia. subst. split; reflexivity.
  - destruct n as [|n].
    + cbn [substring append]. rewrite Nat.sub_0_r.
      change (String.length (String c s)) with (S (String.length s)).
      cbn [substring]. rewrite substring_all. split; reflexivity.
    + simpl in H. destruct (IH n ltac:(lia)) as [E L].
      change (String.length (String c s)) with (S (String.length s)).
      rewrite Nat.sub_succ. cbn [substring append String.length].
      rewrite E, L. split; reflexivity.
Qed.

(** Cutting a digit string in two. *)
Lemma cut_digits s n :
  is_digits s = true -> 0 <= n <= slen s ->
  let a := substring 0 (Z.to_nat n) s in
  let b := substring (Z.to_nat n) (Z.to_nat (slen s - n)) s in
  a ++ b = s /\ is_digits a = true /\ is_digits b = true /\
  slen a = n /\ slen b = slen s - n.
Proof.
  intros D H a b. unfold slen in *.
  destruct (substring_split s (Z.to_nat n)) as [E L]; [lia|].
  assert (Eb : b = substring (Z.to_nat n) (String.length s - Z.to_nat n) s).
  { unfold b. f_equal. lia. }
  fold a in E, L. rewrite <- Eb in E.
  assert (D' := D). rewrite <- E, is_digits_app in D'.
  apply andb_true_iff in D' as [Da Db].
  assert (Ls : slen (a ++ b) = slen s) by now rewrite E.
  rewrite slen_app in Ls. unfold slen in Ls. repeat split; lia || assumption.
Qed.

Lemma no_space_app a b : no_space (a ++ b) = no_space a && no_space b.
Proof.
  induction a as [|c a IH]; [reflexivity|]. simpl. now rewrite IH, andb_assoc.
Qed.

Lemma no_space_digits s : is_digits s = true -> no_space s = true.
Proof.
  induction s as [|c s IH]; [reflexivity|]. simpl. intros H.
  apply andb_true_iff in H as [Hc H].
  destruct (digit_facts c Hc) as [-> _]. now rewrite IH.
Qed.

Lemma trim_end_no_space s : no_space s = true -> trim_end s = s.
Proof.
  induction s as [|c s IH]; [reflexivity|]. simpl. intros H.
  apply andb_true_iff in H as [Hc H]. apply negb_true_iff in Hc.
  rewrite IH by assumption. rewrite Hc. destruct s; reflexivity.
Qed.

Lemma trim_no_space s : no_space s = true -> trim s = s.
Proof.
  intros H. unfold trim.
  assert (E : trim_start s = s).
  { destruct s as [|c s]; [reflexivity|]. simpl in *.
    apply andb_true_iff in H as [Hc _]. apply negb_true_iff in Hc.
    now rewrite Hc. }
  rewrite E. now apply trim_end_no_space.
Qed.

(** ** Decimal literals and what [Number] reads from them *)

Lemma parse_exponent_text x :
  parse_exponent ((if x <? 0 then "-" else "+") ++ decimal_digits (Z.abs x))
  = Some x.
Proof.
  destruct (decimal_digits_spec (Z.abs x)) as (D & V & L); [lia|].
  unfold parse_exponent.
  pose proof (scan_digits_app (decimal_digits (Z.abs x)) EmptyString 0 0 D eq_refl) as S.
  rewrite append_nil_r in S.
  destruct (Z.ltb_spec x 0); cbn [append char_eqb Ascii.eqb Bool.eqb];
    rewrite S, V; (destruct (Z.ltb_spec 0 (0 + slen (decimal_digits (Z.abs x))));
    [|lia]); f_equal; lia.
Qed.

Lemma eqb_Infinity_digits ds t :
  is_digits ds = true -> 0 < slen ds ->
  String.eqb (ds ++ t) "Infinity" = false.
Proof.
  intros D L. destruct ds as [|c ds]; [unfold slen in L; simpl in L; lia|].
  simpl in D. apply andb_true_iff in D as [Dc _].
  apply String.eqb_neq. intros [= -> _]. discriminate.
Qed.

Lemma stops_tail fs ex :
  stops (match fs with Some f => "." ++ f | None => EmptyString end ++
         match ex with Some x => exponent_text x | None => EmptyString end) = true.
Proof. destruct fs, ex; reflexivity. Qed.

Lemma stops_exponent ex :
  stops (match ex with Some x => exponent_text x | None => EmptyString end) = true.
Proof. destruct ex; reflexivity. Qed.

Lemma parse_literal neg ds fs ex :
  is_digits ds = true -> 0 < slen ds ->
  is_digits (fraction_of fs) = true ->
  parse_unsigned_decimal neg (literal ds fs ex) =
  round_decimal neg (digits_value (ds ++ fraction_of fs) 0)
    (exponent_of ex - slen (fraction_of fs)).
Proof.
  intros D L F. unfold parse_unsigned_decimal, literal.
  rewrite eqb_Infinity_digits by assumption.
  rewrite (scan_digits_app ds _ 0 0 D (stops_tail fs ex)).
  rewrite Z.add_0_l.
  rewrite digits_value_app by assumption.
  assert (Tail : forall m nf, 0 < slen ds + nf ->
            (if slen ds + nf =? 0 then NaN
             else match match ex with
                        | Some x => exponent_text x
                        | None => EmptyString
                        end with
                  | EmptyString => round_decimal neg m (- nf)
                  | String c0 r3 =>
                      if is_char c0 ["e"%char; "E"%char]
                      then match parse_exponent r3 with
                           | Some x => round_decimal neg m (x - nf)
                           | None => NaN
                           end
                      else NaN
                  end) = round_decimal neg m (exponent_of ex - nf)).
  { intros m nf P. destruct (Z.eqb_spec (slen ds + nf) 0); [lia|].
    destruct ex as [x|]; cbn [exponent_of].
    - unfold exponent_text. cbn [append is_char existsb char_eqb Ascii.eqb Bool.eqb orb].
      now rewrite parse_exponent_text.
    - reflexivity. }
  destruct fs as [f|]; cbn [fraction_of] in *.
  - cbn [append char_eqb Ascii.eqb Bool.eqb].
    rewrite (scan_digits_app f _ _ 0 F (stops_exponent ex)).
    rewrite Z.add_0_l. apply Tail. pose proof (slen_nonneg f). lia.
  - cbn [append digits_value]. change (slen EmptyString) with 0.
    destruct ex as [x|].
    + unfold exponent_text at 1. cbn [append char_eqb Ascii.eqb Bool.eqb].
      apply (Tail (digits_value ds 0) 0). lia.
    + apply (Tail (digits_value ds 0) 0). lia.
Qed.

Lemma digit_not_prefix c :
  is_digit c = true ->
  char_eqb c "+" = false /\ char_eqb c "-" = false /\
  is_char c ["x"; "X"]%char = false /\ is_char c ["o"; "O"]%char = false /\
  is_char c ["b"; "B"]%char = false.
Proof.
  each_char c; vm_compute; intros;
    first [discriminate | repeat split; reflexivity].
Qed.

Lemma radix_prefix_literal ds fs ex :
  is_digits ds = true -> 0 < slen ds -> radix_prefix (literal ds fs ex) = None.
Proof.
  intros D L. unfold literal.
  destruct ds as [|c [|d ds]]; [unfold slen in L; simpl in L; lia| |].
  - destruct fs as [f|]; [|destruct ex as [x|]];
      cbn [append radix_prefix exponent_text];
      destruct (char_eqb c "0"); reflexivity.
  - simpl in D. apply andb_true_iff in D as [_ D].
    apply andb_true_iff in D as [Dd _].
    destruct (digit_not_prefix d Dd) as (_ & _ & X & O & B).
    cbn [append radix_prefix]. rewrite X, O, B.
    destruct (char_eqb c "0"); reflexivity.
Qed.

Lemma no_space_literal ds fs ex :
  is_digits ds = true -> is_digits (fraction_of fs) = true ->
  no_space (literal ds fs ex) = true.
Proof.
  intros D F. unfold literal. rewrite !no_space_app.
  rewrite (no_space_digits ds D).
  assert (E : no_space (match ex with Some x => exponent_text x | None => EmptyString end)
              = true).
  { destruct ex as [x|]; [|reflexivity]. unfold exponent_text.
    rewrite !no_space_app.
    destruct (decimal_digits_spec (Z.abs x)) as (Dx & _); [lia|].
    rewrite (no_space_digits _ Dx). now destruct (x <? 0). }
  rewrite E. destruct fs as [f|]; [|reflexivity].
  cbn [fraction_of] in F. rewrite no_space_app, (no_space_digits f F).
  reflexivity.
Qed.

(** [Number] reads a printed decimal literal as the nearest double. *)
Lemma StringToNumber_literal (neg : bool) ds fs ex :
  is_digits ds = true -> 0 < slen ds ->
  is_digits (fraction_of fs) = true ->
  StringToNumber ((if neg then "-" else EmptyString) ++ literal ds fs ex) =
  round_decimal neg (digits_value (ds ++ fraction_of fs) 0)
    (exponent_of ex - slen (fraction_of fs)).
Proof.
  intros D L F. unfold StringToNumber.
  rewrite trim_no_space.
  2:{ rewrite no_space_app, no_space_literal by assumption. now destruct neg. }
  destruct neg; cbn [append].
  - cbn [char_eqb Ascii.eqb Bool.eqb]. now apply parse_literal.
  - pose proof (radix_prefix_literal ds fs ex D L) as R.
    pose proof (parse_literal false ds fs ex D L F) as P.
    destruct (literal ds fs ex) as [|c r] eqn:E.
    + unfold literal in E. destruct ds; [unfold slen in L; simpl in L; lia|].
      discriminate.
    + assert (Dc : is_digit c = true).
      { unfold literal in E. destruct ds as [|c' ds'];
          [unfold slen in L; simpl in L; lia|].
        simpl in D. apply andb_true_iff in D as [Dc _].
        cbn [append] in E. now injection E as <- _. }
      destruct (digit_not_prefix c Dc) as (-> & -> & _).
      rewrite R. exact P.
Qed.

Lemma Number_of_fixed_digits neg n f :
  0 <= n -> 0 < f ->
  StringToNumber (sign_text neg ++ fixed_digits n f) = round_decimal neg n (- f).
Proof.
  intros Hn Hf. unfold fixed_digits.
  destruct (Z.eqb_spec f 0); [lia|].
  destruct (decimal_digits_spec n Hn) as (D & V & L).
  set (m := if slen (decimal_digits n) <=? f
            then pad_zeros (f + 1) (decimal_digits n) else decimal_digits n).
  assert (M : is_digits m = true /\ digits_value m 0 = n /\ f < slen m).
  { unfold m. destruct (Z.leb_spec (slen (decimal_digits n)) f).
    - destruct (pad_zeros_spec (f + 1) _ D) as (D' & V' & L').
      rewrite V', L'. repeat split; [assumption|assumption|lia].
    - repeat split; [assumption|assumption|lia]. }
  destruct M as (Dm & Vm & Lm).
  destruct (cut_digits m (slen m - f) Dm ltac:(lia)) as (E & Da & Db & La & Lb).
  replace (slen m - (slen m - f)) with f in * by lia.
  set (a := substring 0 (Z.to_nat (slen m - f)) m) in *.
  set (b := substring (Z.to_nat (slen m - f)) (Z.to_nat f) m) in *.
  replace (a ++ "." ++ b) with (literal a (Some b) None).
  2:{ unfold literal. now rewrite append_nil_r. }
  unfold sign_text. rewrite StringToNumber_literal; try assumption; [|lia].
  cbn [fraction_of exponent_of]. rewrite E, Vm, Lb. reflexivity.
Qed.

Lemma round_decimal_shift neg m e :
  0 <= e -> round_decimal neg (m * 10 ^ e) 0 = round_decimal neg m e.
Proof.
  intros H. unfold round_decimal. cbn [Z.leb Z.compare].
  destruct (Z.leb_spec 0 e); [|lia].
  change (10 ^ 0) with 1. now rewrite Z.mul_1_r.
Qed.

Lemma Number_of_exponent_form neg s n :
  0 <= s ->
  let ds := decimal_digits s in
  let k := slen ds in
  let es := (if n - 1 <? 0 then "-" else "+") ++ decimal_digits (Z.abs (n - 1)) in
  StringToNumber
    (sign_text neg ++
     (if k =? 1 then ds ++ "e" ++ es
      else substring 0 1 ds ++ "." ++
           substring 1 (Z.to_nat (k - 1)) ds ++ "e" ++ es)) =
  round_decimal neg s (n - k).
Proof.
  intros Hs ds k es. unfold sign_text.
  destruct (decimal_digits_spec s Hs) as (D & V & L).
  fold ds in D, V, L. fold k in L.
  destruct (Z.eqb_spec k 1) as [K1|K1].
  - replace (ds ++ "e" ++ es) with (literal ds None (Some (n - 1)))
      by reflexivity.
    rewrite StringToNumber_literal by (assumption || reflexivity).
    cbn [fraction_of exponent_of]. rewrite append_nil_r, V.
    change (slen EmptyString) with 0. f_equal. lia.
  - destruct (cut_digits ds 1 D ltac:(fold k; lia)) as (E & Da & Db & La & Lb).
    fold k in E, Db, Lb |- *. change (Z.to_nat 1) with 1%nat in *.
    set (a := substring 0 1 ds) in *.
    set (b := substring 1 (Z.to_nat (k - 1)) ds) in *.
    replace (a ++ "." ++ b ++ "e" ++ es)
      with (literal a (Some b) (Some (n - 1))).
    2:{ unfold literal, exponent_text. now rewrite !append_assoc. }
    rewrite StringToNumber_literal by (assumption || lia).
    cbn [fraction_of exponent_of]. rewrite E, V, Lb. f_equal. lia.
Qed.

Lemma Number_of_format_decimal neg s n :
  0 <= s ->
  StringToNumber (sign_text neg ++ format_decimal s n) =
  round_decimal neg s (n - num_digits s).
Proof.
  intros Hs. unfold format_decimal, num_digits.
  pose proof (Number_of_exponent_form neg s n Hs) as X. cbv zeta in X.
  destruct (decimal_digits_spec s Hs) as (D & V & L).
  set (ds := decimal_digits s) in *. set (k := slen ds) in *.
  destruct ((k <=? n) && (n <=? 21)) eqn:C1.
  - (* digits followed by zeros *)
    apply andb_true_iff in C1 as [Hkn Hn21].
    apply Z.leb_le in Hkn. unfold sign_text.
    destruct (repeat_zero_spec (Z.to_nat (n - k)) (digits_value ds 0))
      as (D0 & V0 & L0).
    replace (ds ++ repeat_char "0" (Z.to_nat (n - k)))
      with (literal (ds ++ repeat_char "0" (Z.to_nat (n - k))) None None)
      by (unfold literal; now rewrite !append_nil_r).
    rewrite StringToNumber_literal.
    + cbn [fraction_of exponent_of]. rewrite append_nil_r.
      rewrite digits_value_app, V0, V, Z2Nat.id by (assumption || lia).
      change (slen EmptyString) with 0. change (0 - 0) with 0.
      apply round_decimal_shift. lia.
    + now rewrite is_digits_app, D, D0.
    + rewrite slen_app, L0. fold k. lia.
    + reflexivity.
  - destruct ((0 <? n) && (n <=? 21)) eqn:C2.
    + (* a decimal point inside the digits *)
      apply andb_true_iff in C2 as [Hn0 Hn21].
      apply Z.ltb_lt in Hn0. rewrite Hn21, andb_true_r in C1.
      apply Z.leb_gt in C1. unfold sign_text.
      destruct (cut_digits ds n D ltac:(fold k; lia)) as (E & Da & Db & La & Lb).
      fold k in E, Db, Lb |- *.
      set (a := substring 0 (Z.to_nat n) ds) in *.
      set (b := substring (Z.to_nat n) (Z.to_nat (k - n)) ds) in *.
      replace (a ++ "." ++ b) with (literal a (Some b) None).
      2:{ unfold literal. now rewrite append_nil_r. }
      rewrite StringToNumber_literal by (assumption || lia).
      cbn [fraction_of exponent_of]. rewrite E, V, Lb. f_equal. lia.
    + destruct ((-6 <? n) && (n <=? 0)) eqn:C3; [|exact X].
      (* zeros after the decimal point *)
      apply andb_true_iff in C3 as [Hn6 Hn0].
      apply Z.leb_le in Hn0. unfold sign_text.
      destruct (repeat_zero_spec (Z.to_nat (- n)) 0) as (D0 & V0 & L0).
      replace ("0." ++ repeat_char "0" (Z.to_nat (- n)) ++ ds)
        with (literal "0" (Some (repeat_char "0" (Z.to_nat (- n)) ++ ds)) None).
      2:{ unfold literal. rewrite append_nil_r. reflexivity. }
      rewrite StringToNumber_literal.
      * cbn [fraction_of exponent_of].
        rewrite slen_app, L0. fold k.
        change ("0" ++ ?x) with (String "0" x).
        cbn [digits_value]. change (digit_value 10 "0") with (Some 0).
        cbv iota beta. change (0 * 10 + 0) with 0.
        rewrite digits_value_app, V0, Z.mul_0_l, V by assumption.
        f_equal. lia.
      * reflexivity.
      * reflexivity.
      * cbn [fraction_of]. now rewrite is_digits_app, D0, D.
Qed.

(** ** [Number(x.toString())] and [Number(x.toFixed(f))] *)

Lemma number_eqb_eq x y : number_eqb x y = true -> x = y.
Proof.
  destruct x, y; simpl; try discriminate; try reflexivity; intros H.
  - apply Bool.eqb_prop in H. now subst.
  - apply Bool.eqb_prop in H. now subst.
  - apply andb_true_iff in H as [H He]. apply andb_true_iff in H as [Hs Hm].
    apply Bool.eqb_prop in Hs. apply Pos.eqb_eq in Hm. apply Z.eqb_eq in He.
    now subst.
Qed.

Lemma scale10_pos p q e :
  0 < p -> 0 < q -> 0 < fst (scale10 p q e) /\ 0 < snd (scale10 p q e).
Proof.
  intros Hp Hq. unfold scale10. destruct (Z.leb_spec 0 e); cbn [fst snd].
  - assert (0 < 10 ^ e) by (apply Z.pow_pos_nonneg; lia). nia.
  - assert (0 < 10 ^ (- e)) by (apply Z.pow_pos_nonneg; lia). nia.
Qed.

Lemma candidate_spec x p q n0 k s n :
  0 < p -> 0 < q ->
  candidate x p q n0 k = Some (s, n) ->
  0 <= s /\ round_decimal false s (n - num_digits s) = x.
Proof.
  intros Hp Hq. unfold candidate.
  pose proof (scale10_pos p q (n0 - k) Hp Hq) as [Pn Pd].
  destruct (scale10 p q (n0 - k)) as [num den]. cbn [fst snd] in *.
  assert (Lo : 0 <= num / den) by (apply Z.div_pos; lia).
  set (lo := (num / den, n0)).
  set (hi := if num / den + 1 =? 10 ^ k then (1, n0 + 1)
             else (num / den + 1, n0)).
  assert (Plo : 0 <= fst lo) by exact Lo.
  assert (Phi : 0 <= fst hi).
  { unfold hi. destruct (_ =? _); cbn [fst]; lia. }
  assert (K : forall r, rounds_to x r = true -> 0 <= fst r ->
              Some r = Some (s, n) ->
              0 <= s /\ round_decimal false s (n - num_digits s) = x).
  { intros [a b] H P [= -> ->]. split; [exact P|now apply number_eqb_eq in H]. }
  destruct (rounds_to x lo) eqn:Rlo; destruct (rounds_to x hi) eqn:Rhi;
    try discriminate.
  - destruct (2 * (num mod den) ?= den); [destruct (Z.even (num / den))| |];
      first [apply (K lo); assumption | apply (K hi); assumption].
  - apply (K lo); assumption.
  - apply (K hi); assumption.
Qed.

Lemma shortest_from_spec fuel x p q n0 k s n :
  0 < p -> 0 < q ->
  shortest_from fuel x p q n0 k = Some (s, n) ->
  0 <= s /\ round_decimal false s (n - num_digits s) = x.
Proof.
  intros Hp Hq. revert k. induction fuel as [|f IH]; intros k; [discriminate|].
  simpl. destruct (candidate x p q n0 k) as [[s' n']|] eqn:C.
  - intros [= -> ->]. now apply (candidate_spec x p q n0 k).
  - apply IH.
Qed.

Lemma exact_Fin neg m e :
  exact (Fin neg m e) =
  ((if neg then - (Zpos m * 2 ^ Z.max 0 e) else Zpos m * 2 ^ Z.max 0 e),
   2 ^ Z.max 0 (- e)).
Proof.
  unfold exact. rewrite scale2_eq, Z.opp_involutive, Z.mul_1_l. reflexivity.
Qed.

Lemma log2_pow2 b : 0 <= b -> Z.log2 (2 ^ b) = b.
Proof. intros. now apply Z.log2_pow2. Qed.

(** The decimal the printer chooses rounds back to the double. *)
Lemma shortest_spec m e :
  canonical (Fin false m e) = true ->
  let x := Fin false m e in
  let sn := shortest x (fst (exact x)) (snd (exact x)) in
  0 <= fst sn /\
  round_decimal false (fst sn) (snd sn - num_digits (fst sn)) = x.
Proof.
  intros C x sn.
  pose proof (round_ratio_exact false m e C) as Id. fold x in Id.
  assert (PQ : 0 < fst (exact x) /\ 0 < snd (exact x)).
  { unfold x. cbn [exact].
    pose proof (scale2_pos (Zpos m) 1 (- e) ltac:(lia) ltac:(lia)) as [A B].
    destruct (scale2 _ _ _). exact (conj A B). }
  destruct PQ as [Pp Pq].
  assert (Q : snd (exact x) = 2 ^ Z.max 0 (- e)).
  { unfold x. now rewrite exact_Fin. }
  set (p := fst (exact x)) in *. set (q := snd (exact x)) in *.
  unfold sn, shortest.
  destruct (shortest_from 17 x p q (decimal_exponent p q) 1) as [[s n]|] eqn:S.
  - cbn [fst snd].
    now apply (shortest_from_spec 17 x p q (decimal_exponent p q) 1).
  - unfold exact_decimal. cbn [fst snd].
    set (j := Z.log2 q).
    assert (J : j = Z.max 0 (- e)) by (unfold j; rewrite Q; apply log2_pow2; lia).
    assert (P5 : 0 < 5 ^ j) by (apply Z.pow_pos_nonneg; lia).
    split; [nia|].
    replace (num_digits (p * 5 ^ j) - j - num_digits (p * 5 ^ j)) with (- j)
      by lia.
    unfold round_decimal. rewrite <- Id.
    destruct (Z.leb_spec 0 (- j)).
    + assert (j = 0) by lia. rewrite Q, <- J, H0.
      change (5 ^ 0) with 1. change (10 ^ (- 0)) with 1. change (2 ^ 0) with 1.
      now rewrite !Z.mul_1_r.
    + rewrite Z.opp_involutive.
      replace (10 ^ j) with (5 ^ j * 2 ^ j)
        by (rewrite <- Z.pow_mul_l; reflexivity).
      rewrite (Z.mul_comm p), Q, <- J.
      apply round_ratio_scale; [assumption|apply pow2_pos; lia].
Qed.

Lemma Number_of_toString neg m e :
  canonical (Fin neg m e) = true ->
  StringToNumber (Number_toString (Fin neg m e)) = Fin neg m e.
Proof.
  intros C. assert (C' : canonical (Fin false m e) = true) by exact C.
  destruct (shortest_spec m e C') as [P R].
  unfold Number_toString.
  destruct (exact (Fin false m e)) as [p q] eqn:E. cbn [fst snd] in *.
  destruct (shortest (Fin false m e) p q) as [s n]. cbn [fst snd] in *.
  change (if neg then "-" else EmptyString) with (sign_text neg).
  rewrite Number_of_format_decimal by assumption.
  rewrite round_decimal_with_sign, R. reflexivity.
Qed.

Lemma nearest_scaled_spec p q f :
  0 <= p -> 0 < q -> 0 <= f ->
  let n := nearest_scaled p q f in
  0 <= n /\
  2 * n * q <= 2 * p * 10 ^ f + q < 2 * (n + 1) * q.
Proof.
  intros Hp Hq Hf n. unfold n, nearest_scaled.
  assert (0 < 10 ^ f) by (apply Z.pow_pos_nonneg; lia).
  set (a := 2 * p * 10 ^ f + q).
  assert (0 <= a) by (unfold a; nia).
  pose proof (Z.div_mod a (2 * q) ltac:(lia)) as D.
  pose proof (Z.mod_pos_bound a (2 * q) ltac:(lia)) as M.
  split; [apply Z.div_pos; lia|]. nia.
Qed.

Theorem Number_of_toFixed x f :
  isFinite x = true -> canonical x = true -> 0 < f ->
  StringToNumber (toFixed x f) = rounded_to f x.
Proof.
  intros Fx C Hf. destruct x as [| |s|neg m e]; try discriminate.
  - (* zero *)
    unfold toFixed, rounded_to.
    change (fixed_digits 0 f) with (sign_text false ++ fixed_digits 0 f).
    rewrite Number_of_fixed_digits by lia.
    unfold round_decimal. destruct (0 <=? - f); reflexivity.
  - unfold toFixed, rounded_to.
    assert (C' : canonical (Fin false m e) = true) by exact C.
    destruct (canonical_bounds false m e C') as (Hm & He & _).
    pose proof (round_ratio_exact neg m e C) as Id.
    assert (E : exact (Fin false m e) =
                (Zpos m * 2 ^ Z.max 0 e, 2 ^ Z.max 0 (- e))).
    { apply exact_Fin. }
    rewrite E in *. cbn [fst snd] in Id.
    set (p := Zpos m * 2 ^ Z.max 0 e) in *. set (q := 2 ^ Z.max 0 (- e)) in *.
    assert (Pq : 0 < q) by (apply pow2_pos; lia).
    assert (Pp : 0 < p) by (pose proof (pow2_pos (Z.max 0 e) ltac:(lia)); unfold p; nia).
    change (if neg then "-" else EmptyString) with (sign_text neg).
    destruct (Z.leb_spec (10 ^ 21 * q) p) as [Big|Small].
    + (* at least 10^21: printed as by toString *)
      assert (Q1 : q = 1).
      { unfold q. destruct (Z_lt_ge_dec e 0) as [Neg|Pos].
        - exfalso. unfold p, q in Big. rewrite (Z.max_l 0 e) in Big by lia.
          change (2 ^ 0) with 1 in Big. rewrite Z.mul_1_r in Big.
          assert (1 <= 2 ^ Z.max 0 (- e)) by (pose proof (pow2_pos (Z.max 0 (- e)) ltac:(lia)); lia).
          assert (10 ^ 21 <= 10 ^ 21 * 2 ^ Z.max 0 (- e)) by nia.
          assert (2 ^ 53 < 10 ^ 21) by reflexivity. lia.
        - rewrite Z.max_l by lia. reflexivity. }
      pose proof (Number_of_toString false m e C') as T.
      unfold Number_toString in T |- *. rewrite E in T |- *.
      fold p q in T |- *.
      destruct (shortest (Fin false m e) p q) as [s n] eqn:S.
      cbn [append] in T |- *.
      destruct (shortest_spec m e C') as [P0 R]. rewrite E in P0, R.
      cbn [fst snd] in P0, R. fold p q in P0, R. rewrite S in P0, R.
      cbn [fst snd] in P0, R.
      rewrite Number_of_format_decimal by assumption.
      rewrite round_decimal_with_sign, R. cbn [with_sign].
      rewrite <- Id.
      unfold round_decimal. destruct (Z.leb_spec 0 (- f)); [lia|].
      rewrite Z.opp_involutive. unfold nearest_scaled. rewrite Q1.
      assert (P10 : 0 < 10 ^ f) by (apply Z.pow_pos_nonneg; lia).
      replace ((2 * p * 10 ^ f + 1) / (2 * 1)) with (10 ^ f * p).
      2:{ apply Z.div_unique with (r := 1); lia. }
      replace (10 ^ f) with (10 ^ f * 1) at 2 by lia.
      symmetry. apply round_ratio_scale; lia.
    + destruct (nearest_scaled_spec p q f ltac:(lia) Pq ltac:(lia)) as [N0 _].
      now apply Number_of_fixed_digits.
Qed.

(** ** Every number is a double *)

Lemma round_decimal_canonical neg m e :
  canonical (round_decimal neg m e) = true.
Proof.
  unfold round_decimal. destruct (Z.leb_spec 0 e).
  - apply round_ratio_canonical. lia.
  - apply round_ratio_canonical. apply Z.pow_pos_nonneg; lia.
Qed.

Lemma of_Z_canonical z : canonical (of_Z z) = true.
Proof. apply round_ratio_canonical. lia. Qed.

Lemma parse_unsigned_decimal_canonical neg s :
  canonical (parse_unsigned_decimal neg s) = true.
Proof.
  unfold parse_unsigned_decimal.
  destruct (String.eqb s "Infinity"); [reflexivity|].
  destruct (scan_digits 10 s 0 0) as [[i ni] r1].
  destruct (match r1 with
            | EmptyString => (i, 0, r1)
            | String c r => if char_eqb c "." then scan_digits 10 r i 0
                            else (i, 0, r1)
            end) as [[m nf] r2].
  destruct (ni + nf =? 0); [reflexivity|].
  destruct r2 as [|c r3]; [apply round_decimal_canonical|].
  destruct (is_char c _); [|reflexivity].
  destruct (parse_exponent r3); [apply round_decimal_canonical|reflexivity].
Qed.

Lemma parse_radix_canonical radix s : canonical (parse_radix radix s) = true.
Proof.
  unfold parse_radix. destruct (scan_digits radix s 0 0) as [[v cnt] r].
  destruct r; [|reflexivity].
  destruct (0 <? cnt); [apply of_Z_canonical|reflexivity].
Qed.

Lemma StringToNumber_canonical s : canonical (StringToNumber s) = true.
Proof.
  unfold StringToNumber. destruct (trim s) as [|c r]; [reflexivity|].
  destruct (char_eqb c "+"); [apply parse_unsigned_decimal_canonical|].
  destruct (char_eqb c "-"); [apply parse_unsigned_decimal_canonical|].
  destruct (radix_prefix (String c r)) as [[radix ds]|].
  - apply parse_radix_canonical.
  - apply parse_unsigned_decimal_canonical.
Qed.

Lemma ToNumber_canonical v x : ToNumber v = Normal x -> canonical x = true.
Proof.
  destruct v as [| |b|d|s|l|l]; simpl.
  - now intros [= <-].
  - now intros [= <-].
  - intros [= <-]. destruct b; [apply of_Z_canonical|reflexivity].
  - intros [= <-]. apply dcanon.
  - intros [= <-]. apply StringToNumber_canonical.
  - destruct (_ : completion string) as [s|e]; cbn [bindc]; [|discriminate].
    intros [= <-]. apply StringToNumber_canonical.
  - destruct (has_own _ _); cbn [bindc]; [discriminate|].
    intros [= <-]. apply StringToNumber_canonical.
Qed.

(** ** Values and the errors of their conversions *)

Section ValueInduction.
Variable P : value -> Prop.
Hypothesis PUndefined : P VUndefined.
Hypothesis PNull : P VNull.
Hypothesis PBool : forall b, P (VBool b).
Hypothesis PNum : forall x, P (VNum x).
Hypothesis PStr : forall s, P (VStr s).
Hypothesis PArr : forall l, Forall P l -> P (VArr l).
Hypothesis PObj : forall l, Forall (fun kv => P (snd kv)) l -> P (VObj l).

Fixpoint value_induction (v : value) : P v :=
  match v with
  | VUndefined => PUndefined
  | VNull => PNull
  | VBool b => PBool b
  | VNum x => PNum x
  | VStr s => PStr s
  | VArr l =>
      PArr l ((fix all (l : list value) : Forall P l :=
                 match l with
                 | [] => Forall_nil P
                 | x :: r => Forall_cons x (value_induction x) (all r)
                 end) l)
  | VObj l =>
      PObj l ((fix all (l : list (string * value))
                 : Forall (fun kv => P (snd kv)) l :=
                 match l with
                 | [] => Forall_nil _
                 | kv :: r =>
                     Forall_cons kv (value_induction (snd kv)) (all r)
                 end) l)
  end.
End ValueInduction.

Lemma ToString_array l : ToString (VArr l) = join l.
Proof. induction l as [|x r IH]; [reflexivity|]. simpl. reflexivity. Qed.

Lemma ToString_throws v e : ToString v = Throw e -> e = cannot_convert.
Proof.
  revert e. induction v as [| |b|x|s|l IH|l IH] using value_induction;
    intros e; try discriminate.
  - rewrite ToString_array.
    induction IH as [|x r Hx Hr IHr]; [discriminate|].
    cbn [join].
    assert (E : forall e', match x with
                           | VUndefined | VNull => Normal EmptyString
                           | _ => ToString x
                           end = Throw e' -> e' = cannot_convert).
    { intros e' H. destruct x; try discriminate; now apply Hx. }
    destruct (match x with VUndefined | VNull => Normal EmptyString | _ => ToString x end)
      as [a|e'] eqn:X; cbn [bindc].
    + destruct r as [|y r']; [discriminate|].
      destruct (join (y :: r')) as [b|e'] eqn:J; cbn [bindc]; [discriminate|].
      intros [= <-]. now apply IHr.
    + intros [= <-]. now apply E.
  - simpl. destruct (has_own _ _); [|discriminate]. now intros [= <-].
Qed.

Lemma normalize_date_throws host fecha e :
  normalize_date host fecha = Throw e ->
  e = cannot_convert \/ e = RangeError "Invalid time value".
Proof.
  unfold normalize_date.
  destruct (ToString fecha) as [f|e'] eqn:E; cbn [bindc].
  - unfold toISOString. destruct (Date_parse _ _).
    + destruct (civil_from_days _) as [[y m] d]. discriminate.
    + intros [= <-]. now right.
  - intros [= <-]. left. now apply ToString_throws in E.
Qed.

(** ** The handlers *)

Lemma fetchBanxico_eq (v : version) (host : Host) (w : World) :
  fetchBanxico_of v host w =
  match quote_of_answer v host (answer host w) with
  | Normal c => (Normal c, with_cache c (sent host w))
  | Throw e => (Throw e, sent host w)
  end.
Proof.
  unfold quote_of_answer, quote_of_body, answer, sent, with_cache.
  destruct v; simpl;
    unfold Index.fetchBanxico, Part001.fetchBanxico, bind, fetch, lift,
      throw, set_cache, get_cache; simpl;
    destruct (network host _ _) as [r|e]; simpl; try reflexivity;
    destruct (ok r); simpl; try reflexivity;
    destruct (json r) as [j|e]; simpl; try reflexivity;
    destruct (ToNumber _) as [mid|e]; simpl; try reflexivity;
    try (destruct (Part001.parseBanxicoDate _) as [fecha|e]; simpl;
         try reflexivity);
    destruct (negb (isFinite mid) || _); simpl; try reflexivity;
    destruct (normalize_date _ _) as [iso|e]; simpl; reflexivity.
Qed.

Lemma needsRefresh_eq (host : Host) (w : World) :
  needsRefresh host (cache w)
    (env_number host "MAX_CACHE_MS" (60 * 60 * 1000)) w =
  (Normal (refresh_due host w), after_decision w).
Proof.
  unfold needsRefresh, refresh_due, after_decision, bind, Date_now, ret.
  destruct (asOf (cache w)) as [[|a s]|]; reflexivity.
Qed.

Lemma isStale_eq (host : Host) (w : World) :
  isStale host (asOf (cache w)) w = (Normal (stale_flag host w), after_decision w).
Proof.
  unfold isStale, stale_flag, after_decision, bind, Date_now, ret.
  destruct (asOf (cache w)) as [[|a s]|]; reflexivity.
Qed.

Lemma cache_after_decision (w : World) : cache (after_decision w) = cache w.
Proof.
  unfold after_decision. destruct (asOf (cache w)) as [[|a s]|]; reflexivity.
Qed.

Lemma requests_after_decision (w : World) :
  requests (after_decision w) = requests w.
Proof.
  unfold after_decision. destruct (asOf (cache w)) as [[|a s]|]; reflexivity.
Qed.

(** [latest] in one equation: the decision, the refresh if due, the answer. *)
Lemma latest_eq (v : version) (host : Host) (w : World) :
  latest_of v host w =
  let w1 := after_decision w in
  if refresh_due host w then
    match quote_of_answer v host (answer host w1) with
    | Normal c =>
        let w2 := with_cache c (sent host w1) in
        (Normal (quote_response host w2), after_decision w2)
    | Throw e => (Normal (error_response e), sent host w1)
    end
  else (Normal (quote_response host w1), after_decision w1).
Proof.
  assert (G : forall f, (f = Index.fetchBanxico host \/
                         f = Part001.fetchBanxico host) ->
                        f = fetchBanxico_of v host ->
              Adapter.latest host f w =
              let w1 := after_decision w in
              if refresh_due host w then
                match quote_of_answer v host (answer host w1) with
                | Normal c =>
                    let w2 := with_cache c (sent host w1) in
                    (Normal (quote_response host w2), after_decision w2)
                | Throw e => (Normal (error_response e), sent host w1)
                end
              else (Normal (quote_response host w1), after_decision w1)).
  { intros f _ ->. unfold latest, try_catch.
    unfold bind at 1. unfold get_cache at 1.
    unfold bind at 1. rewrite needsRefresh_eq.
    destruct (refresh_due host w); cbv zeta.
    - unfold bind at 1. unfold bind at 1.
      rewrite fetchBanxico_eq.
      destruct (quote_of_answer v host _) as [c|e]; simpl.
      + unfold bind at 1. unfold get_cache at 1.
        unfold bind at 1.
        change c with (cache (with_cache c (sent host (after_decision w)))) at 1.
        rewrite isStale_eq. reflexivity.
      + reflexivity.
    - unfold bind at 1. unfold ret at 1.
      unfold bind at 1. unfold get_cache at 1. unfold bind at 1.
      rewrite isStale_eq. reflexivity. }
  destruct v; apply G; auto.
Qed.

Lemma quote_of_answer_complete v host a c :
  quote_of_answer v host a = Normal c ->
  exists iso x j, c = mkCache (Some iso) (Some x) false j.
Proof.
  unfold quote_of_answer, quote_of_body.
  destruct a as [r|e]; simpl; [|discriminate].
  destruct (ok r); simpl; [|discriminate].
  destruct (json r) as [j|e]; simpl; [|discriminate].
  destruct (ToNumber _) as [mid|e]; simpl; [|discriminate].
  destruct (read_fecha _ _) as [fecha|e]; simpl; [|discriminate].
  destruct (negb (isFinite mid) || _); [discriminate|].
  destruct (normalize_date _ _) as [iso|e]; simpl; [|discriminate].
  intros [= <-]. eauto.
Qed.

Lemma answer_after_decision host w :
  answer host (after_decision w) = answer host w.
Proof. unfold answer. now rewrite requests_after_decision. Qed.

Lemma healthz_eq (v : version) (host : Host) (w : World) :
  healthz_of v host w =
  (Normal {| code := 200;
             body := HealthBody true (SOURCE host)
                       (negb (absent (asOf (cache w)))) (stale_flag host w) |},
   after_decision w).
Proof.
  assert (E : healthz_of v host w = Adapter.healthz host w)
    by (destruct v; reflexivity).
  rewrite E. unfold healthz. unfold bind at 1. unfold get_cache at 1.
  unfold bind at 1. rewrite isStale_eq. reflexivity.
Qed.

Lemma age_of_Z host now s t :
  Date_parse (engine_parse host) s = Some t -> age host now s = of_Z (now - t).
Proof. unfold age. now intros ->. Qed.

Lemma status_text (st : Z) :
  0 <= st <= 999 -> Number_toString (of_Z st) = decimal_digits st.
Proof.
  intros H.
  assert (A : forallb status_prints (seq 0 1000) = true) by (vm_compute; reflexivity).
  rewrite forallb_forall in A.
  specialize (A (Z.to_nat st)).
  unfold status_prints in A. rewrite Z2Nat.id in A by lia.
  apply String.eqb_eq, A, in_seq. lia.
Qed.

Lemma error_text_upstream r :
  error_text (upstream_error r) =
  "BANXICO_UPSTREAM_" ++ Number_toString (of_Z (status r)).
Proof. reflexivity. Qed.

Lemma kept_or_replaced_perform v host op w :
  kept_or_replaced (cache w) (cache (perform v host op w)).
Proof.
  destruct op; unfold perform.
  - rewrite fetchBanxico_eq.
    destruct (quote_of_answer v host _) as [c|e] eqn:Q; cbn [snd].
    + right. apply quote_of_answer_complete in Q. exact Q.
    + left. reflexivity.
  - rewrite healthz_eq. left. apply cache_after_decision.
  - rewrite latest_eq. cbv zeta.
    destruct (refresh_due host w).
    + destruct (quote_of_answer v host _) as [c|e] eqn:Q; cbn [snd].
      * right. rewrite cache_after_decision.
        apply quote_of_answer_complete in Q. exact Q.
      * left. cbn [sent cache]. apply cache_after_decision.
    + left. cbn [snd]. now rewrite !cache_after_decision.
Qed.

Lemma complete_step c c' :
  complete c -> kept_or_replaced c c' -> complete c'.
Proof.
  intros H [->|(iso & x & j & ->)]; [assumption|].
  right. simpl. eauto.
Qed.

Lemma parseBanxicoDate_slash_free d :
  slash_free d -> Part001.parseBanxicoDate d = Normal d.
Proof.
  destruct d as [| |b|x|s|l|l]; simpl; try tauto; try reflexivity.
  intros H. unfold Part001.parseBanxicoDate.
  destruct (truthy (VStr s)); simpl; [|reflexivity]. now rewrite H.
Qed.

Lemma quote_of_answer_agree host a :
  (forall r j, a = Normal r -> json r = Normal j -> slash_free (fecha_of j)) ->
  quote_of_answer index_js host a = quote_of_answer part_001 host a.
Proof.
  intros H. unfold quote_of_answer.
  destruct a as [r|e]; simpl; [|reflexivity].
  destruct (ok r); simpl; [|reflexivity].
  destruct (json r) as [j|e] eqn:J; simpl; [|reflexivity].
  unfold quote_of_body, read_fecha.
  pose proof (parseBanxicoDate_slash_free _ (H r j eq_refl J)) as P.
  unfold fecha_of in P. rewrite P. reflexivity.
Qed.

Lemma scenario_body host j props :
  first_point j = VObj props ->
  lookup "dato" props = Some (VStr "18.3452") ->
  lookup "fecha" props = Some (VStr "01/09/2025") ->
  quote_of_body part_001 host j =
  Normal {| asOf := Some "2025-09-01T18:00:00.000Z";
            usd_mxn_mid := Some (round_decimal false 183452 (-4));
            stale := false;
            raw := j |}.
Proof.
  intros P D F. unfold quote_of_body. rewrite P.
  cbn [opt get]. rewrite D, F.
  cbn [ToNumber bindc read_fecha].
  replace (Part001.parseBanxicoDate (VStr "01/09/2025"))
    with (Normal (VStr "2025-09-01")) by (vm_compute; reflexivity).
  cbn [bindc].
  replace (StringToNumber "18.3452") with (Fin false 5163714742752326 (-48))
    by (vm_compute; reflexivity).
  cbn [isFinite negb truthy orb].
  unfold normalize_date. cbn [ToString bindc].
  unfold Date_parse.
  replace (parse_iso ("2025-09-01" ++ "T18:00:00Z"))
    with (Some (Some 1756749600000)) by (vm_compute; reflexivity).
  replace (toISOString (Some 1756749600000))
    with (Normal "2025-09-01T18:00:00.000Z" : completion string)
    by (vm_compute; reflexivity).
  cbn [bindc].
  replace (toFixed (Fin false 5163714742752326 (-48)) 4) with "18.3452"
    by (vm_compute; reflexivity).
  replace (StringToNumber "18.3452") with (round_decimal false 183452 (-4))
    by (vm_compute; reflexivity).
  reflexivity.
Qed.

Lemma quote_of_answer_ok v host r j mid fecha :
  ok r = true -> json r = Normal j ->
  ToNumber (dato_of j) = Normal mid ->
  read_fecha v (fecha_of j) = Normal fecha ->
  quote_of_answer v host (Normal r) =
  if negb (isFinite mid) || negb (truthy fecha) then Throw parse_error
  else bindc (normalize_date host fecha) (fun iso =>
       Normal {| asOf := Some iso;
                 usd_mxn_mid := Some (StringToNumber (toFixed mid 4));
                 stale := false;
                 raw := j |}).
Proof.
  intros O J D F. unfold quote_of_answer, quote_of_body. cbn [bindc].
  rewrite O, J. cbn [negb bindc]. unfold dato_of in D. unfold fecha_of in F.
  rewrite D. cbn [bindc]. rewrite F. reflexivity.
Qed.

(** ** The two files on the date *)


Lemma split_no_slash a :
  includes a "/" = false -> split a "/" = [a].
Proof.
  induction a as [|c a IH]; [reflexivity|].
  cbn [includes split]. intros H. apply orb_false_iff in H as [Hc Ha].
  rewrite Hc, (IH Ha). reflexivity.
Qed.

Lemma split_at_slash a b :
  includes a "/" = false ->
  split (a ++ "/" ++ b) "/" = a :: split b "/".
Proof.
  induction a as [|c a IH]; [reflexivity|].
  cbn [includes append split]. intros H.
  apply orb_false_iff in H as [Hc Ha].
  rewrite Hc. cbn [append] in IH. rewrite (IH Ha). reflexivity.
Qed.

Lemma includes_slash a b : includes (a ++ "/" ++ b) "/" = true.
Proof.
  induction a as [|c a IH]; [reflexivity|].
  cbn [append includes]. cbn [append] in IH. rewrite IH. apply orb_true_r.
Qed.

(** [parseBanxicoDate] turns day/month/year into year-month-day. *)
Lemma parseBanxicoDate_rewrites day month year :
  includes day "/" = false -> includes month "/" = false ->
  includes year "/" = false ->
  Part001.parseBanxicoDate (VStr (day ++ "/" ++ month ++ "/" ++ year)) =
  Normal (VStr (year ++ "-" ++ month ++ "-" ++ day)).
Proof.
  intros Hd Hm Hy. unfold Part001.parseBanxicoDate.
  assert (T : truthy (VStr (day ++ "/" ++ month ++ "/" ++ year)) = true)
    by (destruct day; reflexivity).
  rewrite T. cbn [negb Part001.call_includes bindc].
  rewrite includes_slash. cbn [negb Part001.call_split bindc].
  rewrite (split_at_slash day _ Hd), (split_at_slash month _ Hm),
    (split_no_slash year Hy).
  reflexivity.
Qed.

(** On a date that is truthy and neither a string nor an array,
    [d.includes] is not a function. *)
Lemma parseBanxicoDate_not_a_string d :
  truthy d = true ->
  match d with VStr _ | VArr _ => False | _ => True end ->
  Part001.parseBanxicoDate d =
  Throw (TypeError "d.includes is not a function").
Proof.
  intros T H. unfold Part001.parseBanxicoDate. rewrite T.
  destruct d; try contradiction; try discriminate; reflexivity.
Qed.

(** What index.js answers in the scenario of the spec depends on what the
    engine makes of "01/09/2025T18:00:00Z"; when that is no date, it answers
    502. *)
Lemma index_js_slash_date (host : Host) (w : World) (r : Response)
  (j : value) (props : list (string * value)) :
  fst (needsRefresh host (cache w)
         (env_number host "MAX_CACHE_MS" (60 * 60 * 1000)) w) = Normal true ->
  answer host w = Normal r ->
  ok r = true ->
  json r = Normal j ->
  first_point j = VObj props ->
  lookup "dato" props = Some (VStr "18.3452") ->
  lookup "fecha" props = Some (VStr "01/09/2025") ->
  engine_parse host "01/09/2025T18:00:00Z" = None ->
  fst (Index.latest host w) =
  Normal {| code := 502; body := ErrorBody "Invalid time value" |}.
Proof.
  intros N A O J P D F E.
  rewrite needsRefresh_eq in N. cbn [fst] in N. injection N as N.
  change (Index.latest host w) with (latest_of index_js host w).
  rewrite latest_eq. cbv zeta. rewrite N, answer_after_decision, A.
  unfold quote_of_answer. cbn [bindc]. rewrite O, J. cbn [negb bindc].
  unfold quote_of_body. rewrite P. cbn [opt get]. rewrite D, F.
  cbn [ToNumber bindc read_fecha].
  replace (StringToNumber "18.3452") with (Fin false 5163714742752326 (-48))
    by (vm_compute; reflexivity).
  cbn [isFinite negb truthy orb].
  unfold normalize_date. cbn [ToString bindc]. unfold Date_parse.
  replace (parse_iso ("01/09/2025" ++ "T18:00:00Z")) with (@None (option Z))
    by (vm_compute; reflexivity).
  change ("01/09/2025" ++ "T18:00:00Z") with "01/09/2025T18:00:00Z".
  rewrite E. reflexivity.
Qed.

(** When the two files disagree, the body's date is neither absent nor a
    string without a slash. *)
Lemma versions_differ_only_with_slash (host : Host) (w : World) :
  Index.fetchBanxico host w <> Part001.fetchBanxico host w ->
  exists r j, answer host w = Normal r /\ json r = Normal j /\
              ~ slash_free (fecha_of j).
Proof.
  intros N.
  change (fetchBanxico_of index_js host w <> fetchBanxico_of part_001 host w)
    in N.
  rewrite !fetchBanxico_eq in N.
  destruct (answer host w) as [r|e] eqn:A.
  - destruct (json r) as [j|e] eqn:J.
    + exists r, j. split; [reflexivity|]. split; [exact J|].
      intros S. apply N.
      rewrite (quote_of_answer_agree host (Normal r)); [reflexivity|].
      intros r' j' [= <-] J'. rewrite J in J'. injection J' as <-. exact S.
    + exfalso. apply N.
      rewrite (quote_of_answer_agree host (Normal r)); [reflexivity|].
      intros r' j' [= <-] J'. rewrite J in J'. discriminate.
  - exfalso. apply N.
    rewrite (quote_of_answer_agree host (Throw e)); [reflexivity|].
    intros r' j' [=].
Qed.

(** On the slash date of the scenario the two files do differ when the
    engine makes no date of "01/09/2025T18:00:00Z". *)
Lemma versions_differ_on_a_slash_date :
  fst (Index.fetchBanxico (answering scenario_payload 0) start) =
    Throw (RangeError "Invalid time value") /\
  fst (Part001.fetchBanxico (answering scenario_payload 0) start) =
    Normal {| asOf := Some "2025-09-01T18:00:00.000Z";
              usd_mxn_mid := Some (round_decimal false 183452 (-4));
              stale := false;
              raw := scenario_payload |}.
Proof. split; vm_compute; reflexivity. Qed.

(* ================================================================== *)
(** * The claims *)
(* ================================================================== *)

(** ** C1: a failed refresh *)

(** C1.  Whatever the cache holds, when the handler of
    [/fx/usd-mxn/latest] decides to refresh and [fetchBanxico] throws (a
    status outside 2xx, a body that does not parse, a parse error, anything
    else), the handler answers 502 with the text of that error, and the cache
    is the one it was before the call: [asOf], [usd_mxn_mid] and [raw] are
    untouched, also when a usable quote was held. *)
Theorem failed_refresh_keeps_cache (v : version) (host : Host)
  (w w1 w2 : World) (e : Error) :
  needsRefresh host (cache w)
    (env_number host "MAX_CACHE_MS" (60 * 60 * 1000)) w = (Normal true, w1) ->
  fetchBanxico_of v host w1 = (Throw e, w2) ->
  latest_of v host w =
    (Normal {| code := 502; body := ErrorBody (error_text e) |}, w2) /\
  cache w2 = cache w /\
  asOf (cache w2) = asOf (cache w) /\
  usd_mxn_mid (cache w2) = usd_mxn_mid (cache w) /\
  raw (cache w2) = raw (cache w).
Proof.
  intros Hd Hf. rewrite needsRefresh_eq in Hd. injection Hd as Hd <-.
  rewrite fetchBanxico_eq in Hf.
  rewrite latest_eq. cbv zeta. rewrite Hd.
  destruct (quote_of_answer v host _) as [c|e']; [discriminate|].
  injection Hf as -> <-.
  assert (C : cache (sent host (after_decision w)) = cache w)
    by (simpl; apply cache_after_decision).
  rewrite C. repeat split; reflexivity.
Qed.

(** A quote two hours old is held and the upstream answers 503. *)
Lemma failed_refresh_keeps_cache_witness :
  latest_of part_001 (outage two_hours_later) populated =
    (Normal {| code := 502;
               body := ErrorBody (error_text (upstream_error unavailable)) |},
     sent (outage two_hours_later) (after_decision populated)) /\
  cache (sent (outage two_hours_later) (after_decision populated)) =
    cache populated /\
  asOf (cache (sent (outage two_hours_later) (after_decision populated))) =
    asOf (cache populated) /\
  usd_mxn_mid (cache (sent (outage two_hours_later) (after_decision populated))) =
    usd_mxn_mid (cache populated) /\
  raw (cache (sent (outage two_hours_later) (after_decision populated))) =
    raw (cache populated).
Proof.
  apply (failed_refresh_keeps_cache part_001 (outage two_hours_later)
           populated (after_decision populated)
           (sent (outage two_hours_later) (after_decision populated))
           (upstream_error unavailable)).
  - vm_compute. reflexivity.
  - vm_compute. reflexivity.
Defined.

(** ** C2: when the upstream is called *)

(** C2.  The handler of [/fx/usd-mxn/latest] sends a request upstream
    exactly when the cache holds no [asOf] or the age [now - asOf] is
    greater than the refresh interval, [MAX_CACHE_MS] of the environment and
    3,600,000 ms when that is not set; otherwise it sends none, leaves the
    cache as it is and answers 200 with the held [asOf] and
    [usd_mxn_mid].  For an interval that is an integer below [2^53], "greater"
    is [<] on the integers.  A [MAX_CACHE_MS] that is set and not empty is
    read by [Number]; an empty one gives the default as well. *)
Theorem refresh_exactly_when_due (v : version) (host : Host) (w : World) :
  let now := clock host (clock_reads w) in
  let interval := env_number host "MAX_CACHE_MS" (60 * 60 * 1000) in
  let due := match asOf (cache w) with
             | Some (String a s) => gt (age host now (String a s)) interval
             | _ => true
             end in
  let w' := snd (latest_of v host w) in
  requests w' =
    (if due then banxico_request host :: requests w else requests w) /\
  (due = false ->
   cache w' = cache w /\
   exists st,
     fst (latest_of v host w) =
     Normal {| code := 200;
               body := QuoteBody (asOf (cache w)) (usd_mxn_mid (cache w))
                         (BUY_SPREAD_BPS host) (SELL_SPREAD_BPS host)
                         (SOURCE host) st |}) /\
  (env host "MAX_CACHE_MS" = None -> interval = of_Z 3600000) /\
  (forall s t k, 0 <= k < 2 ^ 53 ->
     Date_parse (engine_parse host) s = Some t ->
     gt (age host now s) (of_Z k) = (k <? now - t)) /\
  (forall s, env host "MAX_CACHE_MS" = Some s ->
     interval = match s with
                | EmptyString => of_Z 3600000
                | _ => StringToNumber s
                end).
Proof.
  cbv zeta. rewrite latest_eq. cbv zeta.
  change (match asOf (cache w) with
          | Some (String a s) =>
              gt (age host (clock host (clock_reads w)) (String a s))
                (env_number host "MAX_CACHE_MS" (60 * 60 * 1000))
          | _ => true
          end) with (refresh_due host w).
  split; [|split; [|split; [|split]]].
  - destruct (refresh_due host w).
    + destruct (quote_of_answer v host _) as [c|e]; cbn [snd].
      * rewrite requests_after_decision. cbn [with_cache sent requests].
        now rewrite requests_after_decision.
      * cbn [sent requests]. now rewrite requests_after_decision.
    + cbn [snd]. now rewrite !requests_after_decision.
  - intros ->. cbn [fst snd]. rewrite !cache_after_decision.
    split; [reflexivity|]. unfold quote_response.
    rewrite !cache_after_decision. eauto.
  - unfold env_number. now intros ->.
  - intros s t k Hk Hp. rewrite (age_of_Z _ _ _ _ Hp). now apply gt_of_Z.
  - intros s E. unfold env_number. rewrite E. destruct s; reflexivity.
Qed.

(** ** C3: the end-to-end scenario *)

(** The scenario in the revision with [parseBanxicoDate],
    [src/unnamed/part_001].  When the first data point of the upstream's
    answer has [dato] "18.3452" and [fecha] "01/09/2025", a request that
    refreshes is answered 200 with [usd_mxn_mid] the double nearest to
    18.3452 and [asOf] "2025-09-01T18:00:00.000Z"; [stale] is whether the
    clock, read after the refresh, is more than 86,400,000 ms past that
    instant, so it is [false] within 24 hours of it. *)
Lemma end_to_end_scenario (host : Host) (w : World) (r : Response)
  (j : value) (props : list (string * value)) :
  fst (needsRefresh host (cache w)
         (env_number host "MAX_CACHE_MS" (60 * 60 * 1000)) w) = Normal true ->
  answer host w = Normal r ->
  ok r = true ->
  json r = Normal j ->
  first_point j = VObj props ->
  lookup "dato" props = Some (VStr "18.3452") ->
  lookup "fecha" props = Some (VStr "01/09/2025") ->
  let now := clock host (clock_reads (after_decision w)) in
  exists st,
    fst (Part001.latest host w) =
    Normal {| code := 200;
              body := QuoteBody (Some "2025-09-01T18:00:00.000Z")
                        (Some (round_decimal false 183452 (-4)))
                        (BUY_SPREAD_BPS host) (SELL_SPREAD_BPS host)
                        (SOURCE host) st |} /\
    st = (86400000 <? now - 1756749600000) /\
    (Z.abs (now - 1756749600000) <= 86400000 -> st = false).
Proof.
  intros N A O J P D F now.
  rewrite needsRefresh_eq in N. cbn [fst] in N. injection N as N.
  change (Part001.latest host w) with (latest_of part_001 host w).
  rewrite latest_eq. cbv zeta. rewrite N, answer_after_decision, A.
  unfold quote_of_answer. cbn [bindc]. rewrite O, J. cbn [negb bindc].
  rewrite (scenario_body host j props P D F). cbn [fst].
  eexists. split; [reflexivity|].
  assert (S : stale_flag host
                (with_cache
                   {| asOf := Some "2025-09-01T18:00:00.000Z";
                      usd_mxn_mid := Some (round_decimal false 183452 (-4));
                      stale := false; raw := j |}
                   (sent host (after_decision w))) =
              (86400000 <? now - 1756749600000)).
  { unfold stale_flag. cbn [with_cache cache asOf clock_reads sent].
    fold now. rewrite (age_of_Z host now _ 1756749600000).
    - apply gt_of_Z. lia.
    - unfold Date_parse.
      replace (parse_iso "2025-09-01T18:00:00.000Z")
        with (Some (Some 1756749600000)) by (vm_compute; reflexivity).
      reflexivity. }
  split; [exact S|]. intros H. rewrite S.
  destruct (Z.ltb_spec 86400000 (now - 1756749600000)); [lia|reflexivity].
Qed.

(** The first request of a process, two hours after the fixing. *)
Lemma end_to_end_scenario_witness :
  exists st,
    fst (Part001.latest (answering scenario_payload two_hours_later) start) =
    Normal {| code := 200;
              body := QuoteBody (Some "2025-09-01T18:00:00.000Z")
                        (Some (round_decimal false 183452 (-4)))
                        (BUY_SPREAD_BPS (answering scenario_payload two_hours_later))
                        (SELL_SPREAD_BPS (answering scenario_payload two_hours_later))
                        (SOURCE (answering scenario_payload two_hours_later))
                        st |} /\
    st = (86400000 <?
          clock (answering scenario_payload two_hours_later)
            (clock_reads (after_decision start)) - 1756749600000) /\
    (Z.abs (clock (answering scenario_payload two_hours_later)
              (clock_reads (after_decision start)) - 1756749600000)
       <= 86400000 -> st = false).
Proof.
  exact (end_to_end_scenario (answering scenario_payload two_hours_later) start
           {| status := 200; json := Normal scenario_payload |}
           scenario_payload
           [("fecha", VStr "01/09/2025"); ("dato", VStr "18.3452")]
           eq_refl eq_refl eq_refl eq_refl eq_refl eq_refl eq_refl).
Defined.

(** In [src/fx-banco/src/index.js] the body of the scenario is read as far
    as the date: "01/09/2025T18:00:00Z" is no date of the standard format,
    and when the engine makes none of it either, [toISOString] throws. *)
Lemma index_js_scenario_body host j props :
  first_point j = VObj props ->
  lookup "dato" props = Some (VStr "18.3452") ->
  lookup "fecha" props = Some (VStr "01/09/2025") ->
  engine_parse host "01/09/2025T18:00:00Z" = None ->
  quote_of_body index_js host j = Throw (RangeError "Invalid time value").
Proof.
  intros P D F E. unfold quote_of_body. rewrite P. cbn [opt get].
  rewrite D, F. cbn [ToNumber bindc read_fecha].
  replace (StringToNumber "18.3452") with (Fin false 5163714742752326 (-48))
    by (vm_compute; reflexivity).
  cbn [isFinite negb truthy orb].
  unfold normalize_date. cbn [ToString bindc]. unfold Date_parse.
  replace (parse_iso ("01/09/2025" ++ "T18:00:00Z")) with (@None (option Z))
    by (vm_compute; reflexivity).
  change ("01/09/2025" ++ "T18:00:00Z") with "01/09/2025T18:00:00Z".
  rewrite E. reflexivity.
Qed.

(** C3.  The scenario of the claim, [dato] "18.3452" and [fecha]
    "01/09/2025", in both files the claim cites.  [src/fx-banco/src/index.js]
    has no [parseBanxicoDate]: it hands "01/09/2025T18:00:00Z" to [new Date],
    and on an engine that makes no date of that string (V8 is one)
    [fetchBanxico] throws the RangeError of [toISOString], the request is
    answered 502 "Invalid time value" and the cache stays as it was.  The
    revision [src/unnamed/part_001], which rewrites the date first, answers
    200 with [asOf] "2025-09-01T18:00:00.000Z" and the double nearest to
    18.3452, [stale] being [false] within 24 hours of that instant. *)
Theorem index_js_misses_the_slash_date (host : Host) (w : World)
  (r : Response) (j : value) (props : list (string * value)) :
  fst (needsRefresh host (cache w)
         (env_number host "MAX_CACHE_MS" (60 * 60 * 1000)) w) = Normal true ->
  answer host w = Normal r ->
  ok r = true ->
  json r = Normal j ->
  first_point j = VObj props ->
  lookup "dato" props = Some (VStr "18.3452") ->
  lookup "fecha" props = Some (VStr "01/09/2025") ->
  engine_parse host "01/09/2025T18:00:00Z" = None ->
  (fst (Index.fetchBanxico host w) = Throw (RangeError "Invalid time value") /\
   fst (Index.latest host w) =
     Normal {| code := 502; body := ErrorBody "Invalid time value" |} /\
   cache (snd (Index.latest host w)) = cache w) /\
  (let now := clock host (clock_reads (after_decision w)) in
   exists st,
     fst (Part001.latest host w) =
     Normal {| code := 200;
               body := QuoteBody (Some "2025-09-01T18:00:00.000Z")
                         (Some (round_decimal false 183452 (-4)))
                         (BUY_SPREAD_BPS host) (SELL_SPREAD_BPS host)
                         (SOURCE host) st |} /\
     st = (86400000 <? now - 1756749600000) /\
     (Z.abs (now - 1756749600000) <= 86400000 -> st = false)).
Proof.
  intros N A O J P D F E. split.
  - pose proof (index_js_scenario_body host j props P D F E) as B.
    assert (Q : quote_of_answer index_js host (Normal r) =
                Throw (RangeError "Invalid time value")).
    { unfold quote_of_answer. cbn [bindc]. rewrite O, J. exact B. }
    split; [|split].
    + change (Index.fetchBanxico host w) with (fetchBanxico_of index_js host w).
      rewrite fetchBanxico_eq, A, Q. reflexivity.
    + change (Index.latest host w) with (latest_of index_js host w).
      rewrite needsRefresh_eq in N. cbn [fst] in N. injection N as N.
      rewrite latest_eq. cbv zeta. rewrite N, answer_after_decision, A, Q.
      reflexivity.
    + change (Index.latest host w) with (latest_of index_js host w).
      rewrite needsRefresh_eq in N. cbn [fst] in N. injection N as N.
      rewrite latest_eq. cbv zeta. rewrite N, answer_after_decision, A, Q.
      cbn [snd sent cache]. apply cache_after_decision.
  - exact (end_to_end_scenario host w r j props N A O J P D F).
Qed.

(** The first request of a process, two hours after the fixing, on an
    engine that parses no date outside the standard format. *)
Lemma index_js_misses_the_slash_date_witness :
  (fst (Index.fetchBanxico (answering scenario_payload two_hours_later) start) =
     Throw (RangeError "Invalid time value") /\
   fst (Index.latest (answering scenario_payload two_hours_later) start) =
     Normal {| code := 502; body := ErrorBody "Invalid time value" |} /\
   cache (snd (Index.latest (answering scenario_payload two_hours_later) start)) =
     cache start) /\
  (let now := clock (answering scenario_payload two_hours_later)
                (clock_reads (after_decision start)) in
   exists st,
     fst (Part001.latest (answering scenario_payload two_hours_later) start) =
     Normal {| code := 200;
               body := QuoteBody (Some "2025-09-01T18:00:00.000Z")
                         (Some (round_decimal false 183452 (-4)))
                         (BUY_SPREAD_BPS (answering scenario_payload two_hours_later))
                         (SELL_SPREAD_BPS (answering scenario_payload two_hours_later))
                         (SOURCE (answering scenario_payload two_hours_later))
                         st |} /\
     st = (86400000 <? now - 1756749600000) /\
     (Z.abs (now - 1756749600000) <= 86400000 -> st = false)).
Proof.
  exact (index_js_misses_the_slash_date
           (answering scenario_payload two_hours_later) start
           {| status := 200; json := Normal scenario_payload |}
           scenario_payload
           [("fecha", VStr "01/09/2025"); ("dato", VStr "18.3452")]
           eq_refl eq_refl eq_refl eq_refl eq_refl eq_refl eq_refl eq_refl).
Defined.

(** ** C4: parse errors *)

(** C4, as the spec states it, fails on the code: a rate of zero is not a
    positive number, and both files still build a quote from it. *)
Lemma zero_rate_is_accepted :
  ToNumber (VStr "0") = Normal (Zero false) /\
  gt (Zero false) (of_Z 0) = false /\
  fst (Index.fetchBanxico (answering (payload (VStr "0") (VStr "2025-09-01")) 0)
         start) =
    Normal {| asOf := Some "2025-09-01T18:00:00.000Z";
              usd_mxn_mid := Some (Zero false);
              stale := false;
              raw := payload (VStr "0") (VStr "2025-09-01") |} /\
  fst (Part001.fetchBanxico
         (answering (payload (VStr "0") (VStr "01/09/2025")) 0) start) =
    Normal {| asOf := Some "2025-09-01T18:00:00.000Z";
              usd_mxn_mid := Some (Zero false);
              stale := false;
              raw := payload (VStr "0") (VStr "01/09/2025") |}.
Proof. repeat split; vm_compute; reflexivity. Qed.

(** C4, amended.  For an answer with a 2xx status and a JSON body whose
    rate and date convert without a [TypeError], [fetchBanxico] throws
    [BANXICO_PARSE_ERROR] exactly when the rate is not a finite number or the
    date is absent or otherwise falsy.  A finite rate is accepted whatever
    its sign; a date that is present and does not parse makes
    [toISOString] throw a [RangeError] instead.  A [dato] of "NaN" and a
    missing [fecha] both give [BANXICO_PARSE_ERROR], and a quote, when one is
    built, has both [asOf] and [usd_mxn_mid]. *)
Theorem parse_error_exactly_when (v : version) (host : Host) (w : World)
  (r : Response) (j : value) (mid : number) (fecha : value) :
  answer host w = Normal r ->
  ok r = true ->
  json r = Normal j ->
  ToNumber (dato_of j) = Normal mid ->
  read_fecha v (fecha_of j) = Normal fecha ->
  (fst (fetchBanxico_of v host w) = Throw parse_error <->
   isFinite mid = false \/ truthy fecha = false) /\
  (isFinite mid = true -> truthy fecha = true ->
   forall f, ToString fecha = Normal f ->
     Date_parse (engine_parse host) (f ++ "T18:00:00Z") = None ->
     fst (fetchBanxico_of v host w) = Throw (RangeError "Invalid time value")) /\
  (dato_of j = VStr "NaN" ->
   fst (fetchBanxico_of v host w) = Throw parse_error) /\
  (fecha_of j = VUndefined ->
   fst (fetchBanxico_of v host w) = Throw parse_error) /\
  (forall c, fst (fetchBanxico_of v host w) = Normal c ->
     isFinite mid = true /\ truthy fecha = true /\
     exists iso, asOf c = Some iso /\
                 usd_mxn_mid c = Some (StringToNumber (toFixed mid 4))).
Proof.
  intros A O J D F.
  assert (E : fst (fetchBanxico_of v host w) =
              if negb (isFinite mid) || negb (truthy fecha)
              then Throw parse_error
              else bindc (normalize_date host fecha) (fun iso =>
                   Normal {| asOf := Some iso;
                             usd_mxn_mid := Some (StringToNumber (toFixed mid 4));
                             stale := false;
                             raw := j |})).
  { rewrite fetchBanxico_eq, A, (quote_of_answer_ok v host r j mid fecha O J D F).
    destruct (negb (isFinite mid) || negb (truthy fecha)); [reflexivity|].
    destruct (normalize_date host fecha); reflexivity. }
  assert (B : negb (isFinite mid) || negb (truthy fecha) = true <->
              isFinite mid = false \/ truthy fecha = false).
  { rewrite orb_true_iff, !negb_true_iff. tauto. }
  split; [|split; [|split; [|split]]].
  - rewrite E. split.
    + intros H. apply B.
      destruct (negb (isFinite mid) || negb (truthy fecha)); [reflexivity|].
      destruct (normalize_date host fecha) as [iso|e] eqn:N; cbn [bindc] in H;
        [discriminate|].
      injection H as ->.
      apply normalize_date_throws in N. destruct N; discriminate.
    + intros H. apply B in H. now rewrite H.
  - intros Hm Hf f T P. rewrite E, Hm, Hf. cbn [negb orb].
    unfold normalize_date. rewrite T. cbn [bindc]. rewrite P. reflexivity.
  - intros H. rewrite H in D. injection D as <-.
    rewrite E. reflexivity.
  - intros H. rewrite H in F.
    assert (fecha = VUndefined) by (destruct v; cbv in F; congruence).
    subst fecha. rewrite E. cbn [truthy negb]. now rewrite orb_true_r.
  - intros c H. rewrite E in H.
    destruct (isFinite mid); [|discriminate].
    destruct (truthy fecha); [|discriminate]. cbn [negb orb] in H.
    destruct (normalize_date host fecha) as [iso|e]; cbn [bindc] in H;
      [|discriminate].
    injection H as <-. split; [reflexivity|]. split; [reflexivity|].
    exists iso. split; reflexivity.
Qed.

(** A payload whose rate reads "NaN". *)
Lemma parse_error_exactly_when_witness :
  fst (fetchBanxico_of part_001
         (answering (payload (VStr "NaN") (VStr "01/09/2025")) 0) start)
  = Throw parse_error.
Proof.
  destruct (parse_error_exactly_when part_001
              (answering (payload (VStr "NaN") (VStr "01/09/2025")) 0) start
              {| status := 200;
                 json := Normal (payload (VStr "NaN") (VStr "01/09/2025")) |}
              (payload (VStr "NaN") (VStr "01/09/2025"))
              NaN (VStr "2025-09-01")
              eq_refl eq_refl eq_refl eq_refl eq_refl) as [[_ H] _].
  apply H. left. reflexivity.
Defined.

(** ** C5: strict comparisons *)

(** C5.  Both comparisons are strict.  A quote whose age is exactly
    86,400,000 ms is not stale and one that is older by any amount is; an
    age exactly equal to the refresh interval, an integer below [2^53] or the
    default of 3,600,000 ms, does not ask for a refresh. *)
Theorem freshness_comparisons_are_strict (host : Host) (w : World)
  (a : ascii) (s : string) (t : Z) :
  asOf (cache w) = Some (String a s) ->
  Date_parse (engine_parse host) (String a s) = Some t ->
  let now := clock host (clock_reads w) in
  (now - t = 86400000 ->
   fst (isStale host (asOf (cache w)) w) = Normal false) /\
  (now - t > 86400000 ->
   fst (isStale host (asOf (cache w)) w) = Normal true) /\
  (forall k, 0 <= k < 2 ^ 53 -> now - t = k ->
   fst (needsRefresh host (cache w) (of_Z k) w) = Normal false) /\
  (env host "MAX_CACHE_MS" = None -> now - t = 3600000 ->
   fst (needsRefresh host (cache w)
          (env_number host "MAX_CACHE_MS" (60 * 60 * 1000)) w) = Normal false).
Proof.
  intros Ha Hp now.
  assert (S : forall k, 0 <= k < 2 ^ 53 ->
            fst (isStale host (asOf (cache w)) w) =
              Normal (86400000 <? now - t) /\
            fst (needsRefresh host (cache w) (of_Z k) w) =
              Normal (k <? now - t)).
  { intros k Hk. unfold isStale, needsRefresh. rewrite Ha.
    unfold bind, Date_now, ret. cbn [fst].
    rewrite (age_of_Z _ _ _ _ Hp).
    change (24 * 60 * 60 * 1000) with 86400000.
    rewrite !gt_of_Z by lia. auto. }
  split; [|split; [|split]].
  - intros E. destruct (S 0) as [-> _]; [lia|]. fold now. rewrite E. reflexivity.
  - intros E. destruct (S 0) as [-> _]; [lia|].
    destruct (Z.ltb_spec 86400000 (now - t)); [reflexivity|lia].
  - intros k Hk E. destruct (S k Hk) as [_ ->]. rewrite E.
    now rewrite Z.ltb_irrefl.
  - intros He E. unfold env_number. rewrite He.
    destruct (S (60 * 60 * 1000)) as [_ ->]; [lia|]. rewrite E. reflexivity.
Qed.

(** The held quote, read exactly 24 hours after its instant. *)
Lemma freshness_comparisons_are_strict_witness :
  fst (isStale (outage a_day_later) (asOf (cache populated)) populated)
  = Normal false.
Proof.
  destruct (freshness_comparisons_are_strict (outage a_day_later) populated
              "2" "025-09-01T18:00:00.000Z" 1756749600000 eq_refl eq_refl)
    as [H _].
  apply H. reflexivity.
Defined.

(** ** C6: a status outside 2xx *)

(** C6.  When the upstream's status is not one of 200..299, [fetchBanxico]
    throws an error whose message is [BANXICO_UPSTREAM_] followed by the
    status (its decimal digits for any status up to 999, so
    "BANXICO_UPSTREAM_503" for 503); a request that refreshes, and so
    every request on an empty cache, is then answered 502 with that message
    as [error].  No request is ever answered with a code other than 200 and
    502. *)
Theorem upstream_failure_is_502 (v : version) (host : Host) (w : World)
  (r : Response) :
  answer host w = Normal r ->
  ok r = false ->
  let text := "BANXICO_UPSTREAM_" ++ Number_toString (of_Z (status r)) in
  fst (fetchBanxico_of v host w) = Throw (mkError "Error" text) /\
  (fst (needsRefresh host (cache w)
          (env_number host "MAX_CACHE_MS" (60 * 60 * 1000)) w) = Normal true ->
   fst (latest_of v host w) =
   Normal {| code := 502; body := ErrorBody text |}) /\
  (asOf (cache w) = None ->
   fst (latest_of v host w) =
   Normal {| code := 502; body := ErrorBody text |}) /\
  (0 <= status r <= 999 ->
   text = "BANXICO_UPSTREAM_" ++ decimal_digits (status r)) /\
  (status r = 503 -> text = "BANXICO_UPSTREAM_503") /\
  (forall w0, exists body,
     fst (latest_of v host w0) = Normal {| code := 200; body := body |} \/
     fst (latest_of v host w0) = Normal {| code := 502; body := body |}).
Proof.
  intros Ha Hok text.
  assert (Q : forall w0, requests w0 = requests w ->
              quote_of_answer v host (answer host w0) =
              Throw (mkError "Error" text)).
  { intros w0 E. unfold answer. rewrite E. fold (answer host w). rewrite Ha.
    unfold quote_of_answer. simpl. now rewrite Hok. }
  assert (L : refresh_due host w = true ->
              fst (latest_of v host w) =
              Normal {| code := 502; body := ErrorBody text |}).
  { intros N. rewrite latest_eq. cbv zeta. rewrite N, Q; [reflexivity|].
    apply requests_after_decision. }
  split; [|split; [|split; [|split; [|split]]]].
  - rewrite fetchBanxico_eq, Q; reflexivity.
  - intros N. rewrite needsRefresh_eq in N. cbn [fst] in N.
    injection N as N. now apply L.
  - intros E. apply L. unfold refresh_due. now rewrite E.
  - intros Hs. unfold text. now rewrite status_text.
  - intros E. unfold text. rewrite E. vm_compute. reflexivity.
  - intros w0. rewrite latest_eq. cbv zeta.
    destruct (refresh_due host w0);
      [destruct (quote_of_answer v host _)|]; cbn [fst];
      unfold quote_response, error_response; eauto.
Qed.

(** The upstream answers 503 to the first request of a process. *)
Lemma upstream_failure_is_502_witness :
  fst (latest_of part_001 (outage 0) start) =
  Normal {| code := 502; body := ErrorBody "BANXICO_UPSTREAM_503" |}.
Proof.
  destruct (upstream_failure_is_502 part_001 (outage 0) start unavailable
              eq_refl eq_refl) as (_ & _ & H & _).
  exact (H eq_refl).
Defined.

(** ** C7: the cache is empty or complete *)

(** C7.  The cache starts empty, with neither [asOf] nor [usd_mxn_mid],
    and every operation (a refresh that succeeds or fails, a health check, a
    quote read) leaves it either as it was or replaced as a whole by a quote
    that has both; so after any sequence of operations it holds both fields
    or neither. *)
Theorem cache_is_empty_or_complete (v : version) (host : Host) :
  complete initial_cache /\
  (forall op w, complete (cache w) -> complete (cache (perform v host op w))) /\
  (forall op w, kept_or_replaced (cache w) (cache (perform v host op w))) /\
  (forall ops,
     complete (cache (fold_left (fun w op => perform v host op w) ops start))).
Proof.
  assert (I : complete initial_cache) by (left; split; reflexivity).
  assert (P : forall op w, complete (cache w) ->
                           complete (cache (perform v host op w))).
  { intros op w H. eapply complete_step; [exact H|].
    apply kept_or_replaced_perform. }
  split; [exact I|]. split; [exact P|].
  split; [apply kept_or_replaced_perform|].
  intros ops. assert (G : forall w, complete (cache w) ->
    complete (cache (fold_left (fun w op => perform v host op w) ops w))).
  { induction ops as [|op ops IH]; intros w H; simpl; [exact H|].
    apply IH, P, H. }
  apply G. exact I.
Qed.

(** ** C8: the stored rate *)

(** C8.  When [fetchBanxico] succeeds, the extracted rate [mid] is a
    finite double, and the [usd_mxn_mid] it stores, which a request that
    refreshed then returns, is [mid] rounded to 4 decimals: the double
    nearest to [n / 10^4], where [n] is the integer nearest to
    [|mid| * 10^4] (the larger one on a tie), with the sign of [mid]. *)
Theorem stored_rate_is_rounded (v : version) (host : Host) (w : World)
  (c : Cache) :
  fst (fetchBanxico_of v host w) = Normal c ->
  exists r j mid,
    answer host w = Normal r /\ json r = Normal j /\
    ToNumber (dato_of j) = Normal mid /\ isFinite mid = true /\
    usd_mxn_mid c = Some (rounded_to 4 mid) /\
    cache (snd (fetchBanxico_of v host w)) = c /\
    (forall w0, after_decision w0 = w ->
       fst (needsRefresh host (cache w0)
              (env_number host "MAX_CACHE_MS" (60 * 60 * 1000)) w0)
         = Normal true ->
       exists st,
         fst (latest_of v host w0) =
         Normal {| code := 200;
                   body := QuoteBody (asOf c) (Some (rounded_to 4 mid))
                             (BUY_SPREAD_BPS host) (SELL_SPREAD_BPS host)
                             (SOURCE host) st |}) /\
    (forall neg m e, mid = Fin neg m e ->
       let '(p, q) := exact (Fin false m e) in
       let n := nearest_scaled p q 4 in
       rounded_to 4 mid = round_decimal neg n (-4) /\
       2 * n * q <= 2 * p * 10 ^ 4 + q < 2 * (n + 1) * q).
Proof.
  intros H. rewrite fetchBanxico_eq in H |- *.
  destruct (quote_of_answer v host (answer host w)) as [c'|e] eqn:Q;
    [|discriminate].
  cbn [fst] in H. injection H as ->.
  assert (Q' := Q). unfold quote_of_answer, quote_of_body in Q'.
  destruct (answer host w) as [r|e] eqn:A; cbn [bindc] in Q'; [|discriminate].
  destruct (ok r); cbn [negb] in Q'; [|discriminate].
  destruct (json r) as [j|e] eqn:J; cbn [bindc] in Q'; [|discriminate].
  fold (dato_of j) in Q'. fold (fecha_of j) in Q'.
  destruct (ToNumber (dato_of j)) as [mid|e] eqn:D; cbn [bindc] in Q';
    [|discriminate].
  destruct (read_fecha v (fecha_of j)) as [fecha|e]; cbn [bindc] in Q';
    [|discriminate].
  destruct (isFinite mid) eqn:F; cbn [negb orb] in Q'; [|discriminate].
  destruct (negb (truthy fecha)); [discriminate|].
  destruct (normalize_date host fecha) as [iso|e]; cbn [bindc] in Q';
    [|discriminate].
  injection Q' as <-.
  pose proof (ToNumber_canonical _ _ D) as Cn.
  rewrite (Number_of_toFixed mid 4 F Cn ltac:(lia)).
  exists r, j, mid. cbn [usd_mxn_mid asOf snd with_cache cache].
  repeat (split; [first [reflexivity | assumption]|]). split.
  - intros w0 E N. rewrite needsRefresh_eq in N. cbn [fst] in N.
    injection N as N. rewrite latest_eq. cbv zeta. rewrite N, E, A, Q.
    cbn [fst]. unfold quote_response.
    cbn [with_cache cache asOf usd_mxn_mid].
    rewrite (Number_of_toFixed mid 4 F Cn ltac:(lia)). eauto.
  - intros neg m e ->. cbn [rounded_to].
    rewrite exact_Fin.
    split; [reflexivity|].
    apply nearest_scaled_spec; lia.
Qed.

(** A rate with six decimals, 18.345678, is stored as 18.3457. *)
Lemma stored_rate_is_rounded_witness :
  exists r j mid,
    answer (answering six_decimals 0) start = Normal r /\
    json r = Normal j /\
    ToNumber (dato_of j) = Normal mid /\ isFinite mid = true /\
    usd_mxn_mid six_decimals_quote = Some (rounded_to 4 mid) /\
    cache (snd (fetchBanxico_of part_001 (answering six_decimals 0) start))
      = six_decimals_quote /\
    (forall w0, after_decision w0 = start ->
       fst (needsRefresh (answering six_decimals 0) (cache w0)
              (env_number (answering six_decimals 0) "MAX_CACHE_MS"
                 (60 * 60 * 1000)) w0)
         = Normal true ->
       exists st,
         fst (latest_of part_001 (answering six_decimals 0) w0) =
         Normal {| code := 200;
                   body := QuoteBody (asOf six_decimals_quote)
                             (Some (rounded_to 4 mid))
                             (BUY_SPREAD_BPS (answering six_decimals 0))
                             (SELL_SPREAD_BPS (answering six_decimals 0))
                             (SOURCE (answering six_decimals 0)) st |}) /\
    (forall neg m e, mid = Fin neg m e ->
       let '(p, q) := exact (Fin false m e) in
       let n := nearest_scaled p q 4 in
       rounded_to 4 mid = round_decimal neg n (-4) /\
       2 * n * q <= 2 * p * 10 ^ 4 + q < 2 * (n + 1) * q).
Proof.
  apply (stored_rate_is_rounded part_001 (answering six_decimals 0) start
           six_decimals_quote).
  vm_compute. reflexivity.
Defined.

(** ** C9: the health check *)

(** C9.  The handler of [/healthz] sends nothing upstream and leaves the
    cache as it is; it answers 200 with [cached] telling whether an [asOf]
    is held and [stale] computed from the age of that [asOf], [true] when
    there is none.  [cached] is [true] exactly when [asOf] is a string that
    is not empty. *)
Theorem healthz_reads_only (v : version) (host : Host) (w : World) :
  fst (healthz_of v host w) =
    Normal {| code := 200;
              body := HealthBody true (SOURCE host)
                        (negb (absent (asOf (cache w))))
                        (match asOf (cache w) with
                         | Some (String a s) =>
                             gt (age host (clock host (clock_reads w))
                                   (String a s)) (of_Z 86400000)
                         | _ => true
                         end) |} /\
  cache (snd (healthz_of v host w)) = cache w /\
  requests (snd (healthz_of v host w)) = requests w /\
  (negb (absent (asOf (cache w))) = true <->
   exists c s, asOf (cache w) = Some (String c s)).
Proof.
  rewrite healthz_eq. cbn [fst snd].
  split; [reflexivity|].
  split; [apply cache_after_decision|].
  split; [apply requests_after_decision|].
  unfold absent. destruct (asOf (cache w)) as [[|c s]|]; cbn [negb].
  - split; [discriminate|]. intros (c & s & H). discriminate H.
  - split; [eauto|reflexivity].
  - split; [discriminate|]. intros (c & s & H). discriminate H.
Qed.

(** ** C10: the two files *)

(** [parseBanxicoDate] returns a kept date as it is. *)
Lemma parseBanxicoDate_kept d :
  kept_date d = true -> Part001.parseBanxicoDate d = Normal d.
Proof.
  unfold Part001.parseBanxicoDate.
  destruct d as [| |b|x|s|l|l]; cbn [kept_date]; intros K;
    try (apply negb_true_iff in K; rewrite K; reflexivity).
  - apply negb_true_iff in K.
    destruct (truthy (VStr s)); cbn [negb]; [|reflexivity].
    cbn [Part001.call_includes bindc]. rewrite K. reflexivity.
  - apply negb_true_iff in K.
    cbn [truthy negb Part001.call_includes bindc]. rewrite K. reflexivity.
Qed.

Lemma slash_free_kept d : slash_free d -> kept_date d = true.
Proof.
  destruct d as [| |b|x|s|l|l]; cbn [slash_free kept_date];
    try tauto; try reflexivity.
  intros ->. reflexivity.
Qed.

(** A date that is not kept is a string with a slash or a truthy value
    that is not a string. *)
Lemma not_kept_date d :
  kept_date d = false ->
  (exists s, d = VStr s /\ includes s "/" = true) \/
  (truthy d = true /\ forall s, d <> VStr s).
Proof.
  destruct d as [| |b|x|s|l|l]; cbn [kept_date]; intros K;
    try (right; split; [now apply negb_false_iff in K|discriminate]).
  left. exists s. split; [reflexivity|]. now apply negb_false_iff in K.
Qed.

Lemma quote_of_answer_kept host a :
  (forall r j, a = Normal r -> json r = Normal j ->
               kept_date (fecha_of j) = true) ->
  quote_of_answer index_js host a = quote_of_answer part_001 host a.
Proof.
  intros H. unfold quote_of_answer.
  destruct a as [r|e]; simpl; [|reflexivity].
  destruct (ok r); simpl; [|reflexivity].
  destruct (json r) as [j|e] eqn:J; simpl; [|reflexivity].
  unfold quote_of_body, read_fecha.
  pose proof (parseBanxicoDate_kept _ (H r j eq_refl J)) as P.
  unfold fecha_of in P. rewrite P. reflexivity.
Qed.

(** The claim as it is written fails on a date that is a number: the body's
    [fecha] is 2025, which has no slash; index.js reads "2025T18:00:00Z", a
    date of the standard format, and stores a quote, while the revision
    calls [d.includes] on the number and throws. *)
Lemma number_date_separates_the_versions :
  fecha_of number_dated = year_number /\
  fst (Index.fetchBanxico (answering number_dated 0) start) =
    Normal {| asOf := Some "2025-01-01T18:00:00.000Z";
              usd_mxn_mid := Some (round_decimal false 183452 (-4));
              stale := false;
              raw := number_dated |} /\
  fst (Part001.fetchBanxico (answering number_dated 0) start) =
    Throw (TypeError "d.includes is not a function") /\
  fst (Index.latest (answering number_dated 0) start) <>
    fst (Part001.latest (answering number_dated 0) start).
Proof.
  split; [reflexivity|]. split; [vm_compute; reflexivity|].
  split; [vm_compute; reflexivity|]. vm_compute. discriminate.
Qed.

(** C10.  The two [fetchBanxico], and the two handlers, have the same result
    and the same effect whenever the date of the upstream's answer is one
    [parseBanxicoDate] returns as it is: an absent or otherwise falsy date, a
    string without a slash, an array with no element "/".  They can differ
    only on the other dates: a string with a slash, which the revision
    rewrites to year-month-day, or a truthy value that is not a string, on
    which the revision's [d.includes] or [d.split] is not a function. *)
Theorem versions_agree_on_kept_dates (host : Host) (w : World) :
  ((forall r j, answer host w = Normal r -> json r = Normal j ->
                kept_date (fecha_of j) = true) ->
   Index.fetchBanxico host w = Part001.fetchBanxico host w /\
   Index.latest host w = Part001.latest host w) /\
  (Index.fetchBanxico host w <> Part001.fetchBanxico host w \/
   Index.latest host w <> Part001.latest host w ->
   exists r j, answer host w = Normal r /\ json r = Normal j /\
               kept_date (fecha_of j) = false /\
               ((exists s, fecha_of j = VStr s /\ includes s "/" = true) \/
                (truthy (fecha_of j) = true /\
                 forall s, fecha_of j <> VStr s))) /\
  (forall d, slash_free d -> kept_date d = true).
Proof.
  assert (A : (forall r j, answer host w = Normal r -> json r = Normal j ->
                           kept_date (fecha_of j) = true) ->
              Index.fetchBanxico host w = Part001.fetchBanxico host w /\
              Index.latest host w = Part001.latest host w).
  { intros H. split.
    - change (fetchBanxico_of index_js host w =
              fetchBanxico_of part_001 host w).
      rewrite !fetchBanxico_eq, (quote_of_answer_kept _ _ H). reflexivity.
    - change (latest_of index_js host w = latest_of part_001 host w).
      rewrite !latest_eq. cbv zeta.
      rewrite (quote_of_answer_kept host (answer host (after_decision w))).
      + reflexivity.
      + rewrite answer_after_decision. exact H. }
  split; [exact A|]. split; [|exact slash_free_kept].
  intros N.
  destruct (answer host w) as [r|e] eqn:An.
  - destruct (json r) as [j|e] eqn:J.
    + destruct (kept_date (fecha_of j)) eqn:K.
      * exfalso. destruct A as [A1 A2].
        { intros r' j' [= <-] J'. rewrite J in J'. injection J' as <-.
          exact K. }
        destruct N as [N|N]; apply N; assumption.
      * exists r, j. split; [reflexivity|]. split; [exact J|].
        split; [exact K|]. now apply not_kept_date.
    + exfalso. destruct A as [A1 A2].
      { intros r' j' [= <-] J'. rewrite J in J'. discriminate. }
      destruct N as [N|N]; apply N; assumption.
  - exfalso. destruct A as [A1 A2]; [intros r' j' [=]|].
    destruct N as [N|N]; apply N; assumption.
Qed.

(** An answer whose date is already "2025-09-01", on which the files agree,
    and one whose date is the number 2025, on which they differ. *)
Lemma versions_agree_on_kept_dates_witness :
  (Index.fetchBanxico (answering iso_dated 0) start =
     Part001.fetchBanxico (answering iso_dated 0) start /\
   Index.latest (answering iso_dated 0) start =
     Part001.latest (answering iso_dated 0) start) /\
  (exists r j,
     answer (answering number_dated 0) start = Normal r /\
     json r = Normal j /\
     kept_date (fecha_of j) = false /\
     ((exists s, fecha_of j = VStr s /\ includes s "/" = true) \/
      (truthy (fecha_of j) = true /\ forall s, fecha_of j <> VStr s))).
Proof.
  split.
  - apply (proj1 (versions_agree_on_kept_dates (answering iso_dated 0) start)).
    intros r j A J. unfold answer, answering in A. cbn in A.
    injection A as <-. cbn in J. injection J as <-.
    vm_compute. reflexivity.
  - apply (proj1 (proj2 (versions_agree_on_kept_dates
                           (answering number_dated 0) start))).
    left. vm_compute. discriminate.
Defined.
